(** * provider-cassandra: the Keyspace, Role and Grant reconcilers

  A shallow embedding of the three [external] clients of
  [internal/controller/{keyspace,role,grant}] and of the API types they
  read and write, followed by the properties of their
  Observe / Create / Update / Delete operations.

  Conventions of the embedding.
  - A Go pointer field ([*string], [*int], [*bool]) is an [option]; [nil]
    is [None].  Go's [int] is a [Z]; the reconcilers perform no arithmetic
    on it, only [strconv.Atoi] (which clamps to the 64-bit range) and
    [strconv.Itoa].
  - A [map[string]bool] is a [gmap string bool]; reading a missing key
    yields [false] as in Go.
  - The managed resource is passed by pointer and mutated in place: every
    operation returns the object as it is when the operation returns.
  - The database port is an oracle whose answers may depend on everything
    that was sent to it before; the operations thread the trace of calls.
  - Dereferencing a nil pointer is the outcome [Panic]. *)

From Stdlib Require Import ZArith String Ascii DecimalString.
From stdpp Require Import base strings gmap list.

Open Scope Z_scope.

(** ** Fragments of the Go standard library *)

Module Go.

(** The double quote character (code point 34). *)
Definition dquote : ascii := ascii_of_nat 34.

(** [strings.ReplaceAll(s, old, new)] for one-byte [old] and [new]. *)
Fixpoint ReplaceAll (s : string) (old new : ascii) : string :=
  match s with
  | EmptyString => EmptyString
  | String c s' =>
      String (if Ascii.eqb c old then new else c) (ReplaceAll s' old new)
  end.

(** [strings.ReplaceAll(s, old, new)] for a one-byte [old] and any [new]. *)
Fixpoint ReplaceAllWith (s : string) (old : ascii) (new : string) : string :=
  match s with
  | EmptyString => EmptyString
  | String c s' =>
      if Ascii.eqb c old then new +:+ ReplaceAllWith s' old new
      else String c (ReplaceAllWith s' old new)
  end.

Fixpoint cutPrefix (s prefix : string) : option string :=
  match prefix, s with
  | EmptyString, _ => Some s
  | String p prefix', String c s' =>
      if Ascii.eqb p c then cutPrefix s' prefix' else None
  | String _ _, EmptyString => None
  end.

(** [strings.TrimPrefix]: [s] without the leading [prefix], or [s] itself. *)
Definition TrimPrefix (s prefix : string) : string :=
  default s (cutPrefix s prefix).

(** [strconv.FormatBool], also the [%t] verb of [fmt.Sprintf]. *)
Definition FormatBool (b : bool) : string :=
  if b then "true"%string else "false"%string.

(** [strconv.Itoa]. *)
Definition Itoa (i : Z) : string := NilZero.string_of_int (Z.to_int i).

Definition maxInt : Z := 9223372036854775807.
Definition minInt : Z := -9223372036854775808.

Definition digit (c : ascii) : option Z :=
  let n := Z.of_N (N_of_ascii c) in
  if (48 <=? n) && (n <=? 57) then Some (n - 48) else None.

Fixpoint digits (s : string) (acc : Z) : option Z :=
  match s with
  | EmptyString => Some acc
  | String c s' =>
      match digit c with
      | Some d => digits s' (acc * 10 + d)
      | None => None
      end
  end.

(** The value [strconv.Atoi] returns; its error is dropped by the only
    caller.  A syntax error yields 0, a range error the nearest bound. *)
Definition Atoi (s : string) : Z :=
  match s with
  | EmptyString => 0
  | String c rest =>
      let neg := Ascii.eqb c "-" in
      let body := if neg || Ascii.eqb c "+" then rest else s in
      match body with
      | EmptyString => 0
      | _ =>
          match digits body 0 with
          | None => 0
          | Some n =>
              let v := if neg then - n else n in
              if maxInt <? v then maxInt
              else if v <? minInt then minInt
              else v
          end
      end
  end.

(** Reading a [map[string]bool]: the zero value for a missing key. *)
Definition index (m : gmap string bool) (k : string) : bool :=
  default false (m !! k).

(** What a Go statement yields when it may panic. *)
Inductive Outcome (A : Type) : Type :=
| Panic : Outcome A
| Return : A -> Outcome A.
Arguments Panic {A}.
Arguments Return {A} _.

End Go.

(** ** github.com/pkg/errors *)

Module errors.

Inductive error : Type :=
| New (message : string)
| Wrap (cause : error) (message : string).

Fixpoint Error (e : error) : string :=
  match e with
  | New message => message
  | Wrap cause message => message +:+ ": " +:+ Error cause
  end.

End errors.

(** ** crossplane-runtime: conditions, external name, results *)

Module xpv1.

(** A status condition; the transition time is left out, as
    [Condition.Equal] leaves it out. *)
Record Condition : Type := {
  Type_ : string;
  Status : string;
  Reason : string
}.

Definition Available : Condition :=
  {| Type_ := "Ready"; Status := "True"; Reason := "Available" |}.

Definition sameType (c e : Condition) : bool :=
  String.eqb (Type_ e) (Type_ c).

(** [ConditionedStatus.SetConditions] for one condition: replace the
    conditions of that type, append when there is none. *)
Definition SetConditions (s : list Condition) (c : Condition)
  : list Condition :=
  if existsb (sameType c) s
  then map (fun e => if sameType c e then c else e) s
  else s ++ [c].

End xpv1.

Module meta.

Definition AnnotationKeyExternalName : string :=
  "crossplane.io/external-name".

Definition GetExternalName (annotations : gmap string string) : string :=
  default EmptyString (annotations !! AnnotationKeyExternalName).

End meta.

Module managed.

(** [map[string][]byte]; the nil map is the empty map. *)
Abbreviation ConnectionDetails := (gmap string string).

Record ExternalObservation : Type := {
  ResourceExists : bool;
  ResourceUpToDate : bool;
  ResourceLateInitialized : bool
}.

Record ExternalCreation : Type := {
  CreationConnectionDetails : ConnectionDetails
}.

Record ExternalUpdate : Type := {
  UpdateConnectionDetails : ConnectionDetails
}.

(** The zero values [ExternalObservation{}], [ExternalCreation{}] and
    [ExternalUpdate{}]. *)
Definition noObservation : ExternalObservation :=
  {| ResourceExists := false;
     ResourceUpToDate := false;
     ResourceLateInitialized := false |}.
Definition noCreation : ExternalCreation :=
  {| CreationConnectionDetails := ∅ |}.
Definition noUpdate : ExternalUpdate :=
  {| UpdateConnectionDetails := ∅ |}.

End managed.

(** ** apis/cql/v1alpha1 *)

Module v1alpha1.

Record KeyspaceParameters : Type := {
  ReplicationClass : option string;
  ReplicationFactor : option Z;
  DurableWrites : option bool
}.

(** [Keyspace]: metadata annotations, [Spec.ForProvider],
    [Status.AtProvider.ObservableField] and [Status.Conditions]. *)
Record Keyspace : Type := {
  Keyspace_Annotations : gmap string string;
  Keyspace_ForProvider : KeyspaceParameters;
  Keyspace_ObservableField : string;
  Keyspace_Conditions : list xpv1.Condition
}.

(** Modelled from the spec: the Role API type, whose declaration
    (role_types.go) is not among the sources; the two optional booleans
    are the fields role.go reads, [Spec.ForProvider.Privileges.SuperUser]
    and [Spec.ForProvider.Privileges.Login]. *)
Record RolePrivilege : Type := {
  SuperUser : option bool;
  Login : option bool
}.

Record RoleParameters : Type := {
  Role_Privileges : RolePrivilege
}.

Record Role : Type := {
  Role_Annotations : gmap string string;
  Role_ForProvider : RoleParameters;
  Role_Conditions : list xpv1.Condition
}.

Abbreviation GrantPrivilege := string (only parsing).

(** [GrantParameters]; the reference and selector fields are never read
    by the reconciler and are left out. *)
Record GrantParameters : Type := {
  Grant_Privileges : list GrantPrivilege;
  Grant_Role : option string;
  Grant_Keyspace : option string
}.

Record GrantObservation : Type := {
  AtProvider_Privileges : list string
}.

Record Grant : Type := {
  Grant_Annotations : gmap string string;
  Grant_ForProvider : GrantParameters;
  Grant_AtProvider : GrantObservation;
  Grant_Conditions : list xpv1.Condition
}.

(** [resource.Managed]: the nil interface, a pointer to one of the three
    kinds, or a value of any other kind. *)
Inductive Managed : Type :=
| NilManaged
| AKeyspace (cr : Keyspace)
| ARole (cr : Role)
| AGrant (cr : Grant)
| Other (kind : string).

End v1alpha1.

(** ** internal/clients/cassandra: the database port *)

Module cassandra.

Import errors.

(** What was sent to the database. *)
Inductive Call : Type :=
| CExec (statement : string)
| CQuery (statement : string) (args : list string).

Abbreviation Trace := (list Call).

(** A cursor, described by what each scan the reconcilers perform on it
    delivers ([None]: the scan returns false). *)
Record Iter : Type := {
  (** [Scan(iter, &name)] with [name string] *)
  scanString : option string;
  (** [Scan(iter, &a, &b)] with [a, b bool] *)
  scanBools : option (bool * bool);
  (** [Scan(iter, &m, &p)] with [m map[string]string] and [p *bool] *)
  scanMapAndBoolPtr : option (gmap string string * option bool);
  (** the values of [iter.Scan(&l)], [l []string], until it returns false *)
  scanStringLists : list (list string);
  (** [iter.Close()] *)
  closeError : option error
}.

(** The port [DB]; an answer may depend on the calls made so far. *)
Record DB : Type := {
  db_Exec : Trace -> string -> option error;
  db_Query : Trace -> string -> list string -> Iter * option error;
  db_GetConnectionDetails : string -> string -> managed.ConnectionDetails
}.

(** Modelled from the spec: [QuoteIdentifier], the identifier-quoting
    helper of the client package, whose source file is not among the
    sources.  Names are wrapped in double quotes and an embedded double
    quote is escaped by doubling it. *)
Definition QuoteIdentifier (id : string) : string :=
  String Go.dquote
    (Go.ReplaceAllWith id Go.dquote
       (String Go.dquote (String Go.dquote EmptyString))
     +:+ String Go.dquote EmptyString).

(** Computations that talk to the database. *)
Definition M (A : Type) : Type := Trace -> A * Trace.

#[global] Instance M_ret : MRet M := fun A a h => (a, h).
#[global] Instance M_bind : MBind M :=
  fun A B f m h => let '(a, h') := m h in f a h'.

Definition Exec (db : DB) (statement : string) : M (option error) :=
  fun h => (db_Exec db h statement, h ++ [CExec statement]).

Definition Query (db : DB) (statement : string) (args : list string)
  : M (Iter * option error) :=
  fun h => (db_Query db h statement args, h ++ [CQuery statement args]).

(** What an operation hands back: the object behind the pointer it was
    given, its result value and its error. *)
Record Result (R : Type) : Type := {
  object : v1alpha1.Managed;
  result : R;
  err : option error
}.
Arguments object {R} _.
Arguments result {R} _.
Arguments err {R} _.

Definition answer {R : Type} (mg : v1alpha1.Managed) (r : R)
    (e : option error) : Result R :=
  {| object := mg; result := r; err := e |}.

End cassandra.

(** ** internal/controller/keyspace *)

Module keyspace.

Import errors managed v1alpha1 cassandra.

Definition errNotKeyspace : string :=
  "managed resource is not a Keyspace custom resource".
Definition errSelectKeyspace : string := "cannot select keyspace".
Definition errCreateKeyspace : string := "cannot create keyspace".
Definition errUpdateKeyspace : string := "cannot update keyspace".
Definition errDropKeyspace : string := "cannot drop keyspace".
Definition defaultStrategy : string := "SimpleStrategy".
Definition defaultReplicas : Z := 1.

Definition existsQuery : string :=
  "SELECT keyspace_name FROM system_schema.keyspaces WHERE keyspace_name = ?".
Definition detailsQuery : string :=
  "SELECT replication, durable_writes FROM system_schema.keyspaces WHERE keyspace_name = ?".

(** The test [o == nil || d == nil || *o != *d] of [upToDate]. *)
Definition differ {A : Type} (eqb : A -> A -> bool) (o d : option A) : bool :=
  match o, d with
  | Some x, Some y => negb (eqb x y)
  | _, _ => true
  end.

Definition upToDate (observed desired : KeyspaceParameters) : bool :=
  if differ String.eqb (ReplicationClass observed) (ReplicationClass desired)
  then false
  else if differ Z.eqb (ReplicationFactor observed) (ReplicationFactor desired)
  then false
  else if differ Bool.eqb (DurableWrites observed) (DurableWrites desired)
  then false
  else true.

(** [lateInit] writes through the [desired] pointer: the filled parameters
    are returned next to the flag. *)
Definition lateInit (observed desired : KeyspaceParameters)
  : bool * KeyspaceParameters :=
  let li := false in
  let '(li, desired) :=
    match ReplicationClass desired with
    | None =>
        (true, {| ReplicationClass := ReplicationClass observed;
                  ReplicationFactor := ReplicationFactor desired;
                  DurableWrites := DurableWrites desired |})
    | Some _ => (li, desired)
    end in
  let '(li, desired) :=
    match ReplicationFactor desired with
    | None =>
        (true, {| ReplicationClass := ReplicationClass desired;
                  ReplicationFactor := ReplicationFactor observed;
                  DurableWrites := DurableWrites desired |})
    | Some _ => (li, desired)
    end in
  let '(li, desired) :=
    match DurableWrites desired with
    | None =>
        (true, {| ReplicationClass := ReplicationClass desired;
                  ReplicationFactor := ReplicationFactor desired;
                  DurableWrites := DurableWrites observed |})
    | Some _ => (li, desired)
    end in
  (li, desired).

(** The [observed] parameters Observe assembles: class and factor start as
    pointers to the zero values and are overwritten from the replication map
    when it has the key; the durable-writes pointer is what the scan left. *)
Definition observedParameters (replicationMap : gmap string string)
    (durableWrites : option bool) : KeyspaceParameters :=
  {| ReplicationClass :=
       Some match replicationMap !! "class"%string with
            | Some rc => Go.TrimPrefix rc "org.apache.cassandra.locator."
            | None => EmptyString
            end;
     ReplicationFactor :=
       Some match replicationMap !! "replication_factor"%string with
            | Some rf => Go.Atoi rf
            | None => 0
            end;
     DurableWrites := durableWrites |}.

Definition setAvailable (cr : Keyspace) : Keyspace :=
  {| Keyspace_Annotations := Keyspace_Annotations cr;
     Keyspace_ForProvider := Keyspace_ForProvider cr;
     Keyspace_ObservableField := Keyspace_ObservableField cr;
     Keyspace_Conditions :=
       xpv1.SetConditions (Keyspace_Conditions cr) xpv1.Available |}.

Definition setForProvider (cr : Keyspace) (p : KeyspaceParameters)
  : Keyspace :=
  {| Keyspace_Annotations := Keyspace_Annotations cr;
     Keyspace_ForProvider := p;
     Keyspace_ObservableField := Keyspace_ObservableField cr;
     Keyspace_Conditions := Keyspace_Conditions cr |}.

(** Observe.  The two deferred closures call [Close] on the cursors and
    store a close error in the local variable [err]; the results are not
    named, so what is returned is settled before they run. *)
Definition Observe (db : DB) (mg : Managed)
  : M (Result ExternalObservation) :=
  match mg with
  | AKeyspace cr =>
      let name := meta.GetExternalName (Keyspace_Annotations cr) in
      '(existsIter, err) ← Query db existsQuery [name];
      match err with
      | Some e =>
          mret (answer mg noObservation
                  (Some (Wrap e "failed to check keyspace existence")))
      | None =>
          match scanString existsIter with
          | None =>
              mret (answer mg
                      {| ResourceExists := false;
                         ResourceUpToDate := false;
                         ResourceLateInitialized := false |} None)
          | Some keyspaceName =>
              '(detailsIter, err) ← Query db detailsQuery [name];
              match err with
              | Some e =>
                  mret (answer mg noObservation
                          (Some (Wrap e errSelectKeyspace)))
              | None =>
                  match scanMapAndBoolPtr detailsIter with
                  | None =>
                      mret (answer mg noObservation
                              (Some (New "failed to scan keyspace attributes")))
                  | Some (replicationMap, durableWrites) =>
                      let observed :=
                        observedParameters replicationMap durableWrites in
                      let cr := setAvailable cr in
                      let '(li, desired) :=
                        lateInit observed (Keyspace_ForProvider cr) in
                      let cr := setForProvider cr desired in
                      let utd := upToDate observed (Keyspace_ForProvider cr) in
                      mret (answer (AKeyspace cr)
                              {| ResourceExists := true;
                                 ResourceUpToDate := utd;
                                 ResourceLateInitialized := li |} None)
                  end
              end
          end
      end
  | _ => mret (answer mg noObservation (Some (New errNotKeyspace)))
  end.

Definition Create (db : DB) (mg : Managed) : M (Result ExternalCreation) :=
  match mg with
  | AKeyspace cr =>
      let params := Keyspace_ForProvider cr in
      let strategy :=
        match ReplicationClass params with
        | Some c => c
        | None => defaultStrategy
        end in
      let replicationFactor :=
        match ReplicationFactor params with
        | Some f => f
        | None => defaultReplicas
        end in
      let durableWrites :=
        match DurableWrites params with
        | Some w => w
        | None => true
        end in
      let query :=
        "CREATE KEYSPACE IF NOT EXISTS "
          +:+ QuoteIdentifier (meta.GetExternalName (Keyspace_Annotations cr))
          +:+ " WITH replication = {'class': '" +:+ strategy
          +:+ "', 'replication_factor': " +:+ Go.Itoa replicationFactor
          +:+ "} AND durable_writes = " +:+ Go.FormatBool durableWrites in
      err ← Exec db query;
      match err with
      | Some e =>
          mret (answer mg noCreation
                  (Some (New (errCreateKeyspace +:+ ": " +:+ Error e))))
      | None => mret (answer mg noCreation None)
      end
  | _ => mret (answer mg noCreation (Some (New errNotKeyspace)))
  end.

Definition Update (db : DB) (mg : Managed) : M (Result ExternalUpdate) :=
  match mg with
  | AKeyspace cr =>
      let params := Keyspace_ForProvider cr in
      let strategy :=
        match ReplicationClass params with
        | Some c => c
        | None => defaultStrategy
        end in
      let replicationFactor :=
        match ReplicationFactor params with
        | Some f => f
        | None => defaultReplicas
        end in
      let durableWrites :=
        match DurableWrites params with
        | Some w => w
        | None => true
        end in
      let query :=
        "ALTER KEYSPACE "
          +:+ QuoteIdentifier (meta.GetExternalName (Keyspace_Annotations cr))
          +:+ " WITH replication = {'class': '" +:+ strategy
          +:+ "', 'replication_factor': " +:+ Go.Itoa replicationFactor
          +:+ "} AND durable_writes = " +:+ Go.FormatBool durableWrites in
      err ← Exec db query;
      match err with
      | Some e =>
          mret (answer mg noUpdate
                  (Some (New (errUpdateKeyspace +:+ ": " +:+ Error e))))
      | None => mret (answer mg noUpdate None)
      end
  | _ => mret (answer mg noUpdate (Some (New errNotKeyspace)))
  end.

Definition Delete (db : DB) (mg : Managed) : M (Result unit) :=
  match mg with
  | AKeyspace cr =>
      let query :=
        "DROP KEYSPACE IF EXISTS "
          +:+ QuoteIdentifier (meta.GetExternalName (Keyspace_Annotations cr)) in
      err ← Exec db query;
      match err with
      | Some e =>
          mret (answer mg tt (Some (New (errDropKeyspace +:+ ": " +:+ Error e))))
      | None => mret (answer mg tt None)
      end
  | _ => mret (answer mg tt (Some (New errNotKeyspace)))
  end.

End keyspace.

(** ** internal/controller/role *)

Module role.

Import errors managed v1alpha1 cassandra.

Definition errNotRole : string :=
  "managed resource is not a Role custom resource".
Definition errSelectRole : string := "cannot select role".
Definition errCreateRole : string := "cannot create role".
Definition errUpdateRole : string := "cannot update role".
Definition errDropRole : string := "cannot drop role".

Definition selectQuery : string :=
  "SELECT is_superuser, can_login FROM system_auth.roles WHERE role = ?".

(** The test [o == nil || d == nil || *o != *d] of [upToDate]. *)
Definition differ (o d : option bool) : bool :=
  match o, d with
  | Some x, Some y => negb (Bool.eqb x y)
  | _, _ => true
  end.

Definition upToDate (observed desired : RoleParameters) : bool :=
  if differ (SuperUser (Role_Privileges observed))
            (SuperUser (Role_Privileges desired))
  then false
  else if differ (Login (Role_Privileges observed))
                 (Login (Role_Privileges desired))
  then false
  else true.

(** [lateInit] writes through the [desired] pointer: the filled parameters
    are returned next to the flag. *)
Definition lateInit (observed desired : RoleParameters)
  : bool * RoleParameters :=
  let li := false in
  let '(li, desired) :=
    match SuperUser (Role_Privileges desired) with
    | None =>
        (true,
         {| Role_Privileges :=
              {| SuperUser := SuperUser (Role_Privileges observed);
                 Login := Login (Role_Privileges desired) |} |})
    | Some _ => (li, desired)
    end in
  let '(li, desired) :=
    match Login (Role_Privileges desired) with
    | None =>
        (true,
         {| Role_Privileges :=
              {| SuperUser := SuperUser (Role_Privileges desired);
                 Login := Login (Role_Privileges observed) |} |})
    | Some _ => (li, desired)
    end in
  (li, desired).

Definition setAvailable (cr : Role) : Role :=
  {| Role_Annotations := Role_Annotations cr;
     Role_ForProvider := Role_ForProvider cr;
     Role_Conditions :=
       xpv1.SetConditions (Role_Conditions cr) xpv1.Available |}.

Definition setForProvider (cr : Role) (p : RoleParameters) : Role :=
  {| Role_Annotations := Role_Annotations cr;
     Role_ForProvider := p;
     Role_Conditions := Role_Conditions cr |}.

(** Observe; the deferred [iter.Close()] drops its result. *)
Definition Observe (db : DB) (mg : Managed)
  : M (Result ExternalObservation) :=
  match mg with
  | ARole cr =>
      '(iter, err) ← Query db selectQuery
                       [meta.GetExternalName (Role_Annotations cr)];
      match err with
      | Some e => mret (answer mg noObservation (Some (Wrap e errSelectRole)))
      | None =>
          match scanBools iter with
          | None =>
              mret (answer mg
                      {| ResourceExists := false;
                         ResourceUpToDate := false;
                         ResourceLateInitialized := false |} None)
          | Some (isSuperuser, canLogin) =>
              let observed :=
                {| Role_Privileges :=
                     {| SuperUser := Some isSuperuser;
                        Login := Some canLogin |} |} in
              let cr := setAvailable cr in
              let '(li, desired) := lateInit observed (Role_ForProvider cr) in
              let cr := setForProvider cr desired in
              let utd := upToDate observed (Role_ForProvider cr) in
              mret (answer (ARole cr)
                      {| ResourceExists := true;
                         ResourceUpToDate := utd;
                         ResourceLateInitialized := li |} None)
          end
      end
  | _ => mret (answer mg noObservation (Some (New errNotRole)))
  end.

(** The test [p != nil && *p] used for both flags of a statement. *)
Definition isSet (p : option bool) : bool :=
  match p with
  | Some b => b
  | None => false
  end.

(** Create; [generated] is what [password.Generate()] returns. *)
Definition Create (generated : string * option error) (db : DB)
    (mg : Managed) : M (Result ExternalCreation) :=
  match mg with
  | ARole cr =>
      let '(pw, err) := generated in
      match err with
      | Some e => mret (answer mg noCreation (Some e))
      | None =>
          let params := Role_ForProvider cr in
          let name := meta.GetExternalName (Role_Annotations cr) in
          let query :=
            "CREATE ROLE IF NOT EXISTS " +:+ QuoteIdentifier name
              +:+ " WITH SUPERUSER = "
              +:+ Go.FormatBool (isSet (SuperUser (Role_Privileges params)))
              +:+ " AND LOGIN = "
              +:+ Go.FormatBool (isSet (Login (Role_Privileges params)))
              +:+ " AND PASSWORD = '" +:+ pw +:+ "'" in
          err ← Exec db query;
          match err with
          | Some e =>
              mret (answer mg noCreation
                      (Some (New (errCreateRole +:+ ": " +:+ Error e))))
          | None =>
              let connectionDetails := db_GetConnectionDetails db name pw in
              mret (answer mg
                      {| CreationConnectionDetails := connectionDetails |}
                      None)
          end
      end
  | _ => mret (answer mg noCreation (Some (New errNotRole)))
  end.

Definition Update (db : DB) (mg : Managed) : M (Result ExternalUpdate) :=
  match mg with
  | ARole cr =>
      let params := Role_ForProvider cr in
      let query :=
        "ALTER ROLE "
          +:+ QuoteIdentifier (meta.GetExternalName (Role_Annotations cr))
          +:+ " WITH SUPERUSER = "
          +:+ Go.FormatBool (isSet (SuperUser (Role_Privileges params)))
          +:+ " AND LOGIN = "
          +:+ Go.FormatBool (isSet (Login (Role_Privileges params))) in
      err ← Exec db query;
      match err with
      | Some e =>
          mret (answer mg noUpdate
                  (Some (New (errUpdateRole +:+ ": " +:+ Error e))))
      | None => mret (answer mg noUpdate None)
      end
  | _ => mret (answer mg noUpdate (Some (New errNotRole)))
  end.

Definition Delete (db : DB) (mg : Managed) : M (Result unit) :=
  match mg with
  | ARole cr =>
      let query :=
        "DROP ROLE IF EXISTS "
          +:+ QuoteIdentifier (meta.GetExternalName (Role_Annotations cr)) in
      err ← Exec db query;
      match err with
      | Some e =>
          mret (answer mg tt (Some (New (errDropRole +:+ ": " +:+ Error e))))
      | None => mret (answer mg tt None)
      end
  | _ => mret (answer mg tt (Some (New errNotRole)))
  end.

End role.

(** ** internal/controller/grant *)

Module grant.

Import errors managed v1alpha1 cassandra.
Import Go (Outcome, Panic, Return).

Definition errNotGrant : string :=
  "managed resource is not a Grant custom resource".
Definition errGrantCreate : string := "cannot create grant".
Definition errGrantDelete : string := "cannot delete grant".
Definition errGrantObserve : string := "cannot observe grant".

Definition replaceUnderscoreWithSpace (privileges : list GrantPrivilege)
  : list string :=
  map (fun privilege => Go.ReplaceAll privilege "_" " ") privileges.

Definition grantStatement (privilege keyspace role : string) : string :=
  "GRANT " +:+ privilege +:+ " ON KEYSPACE " +:+ QuoteIdentifier keyspace
    +:+ " TO " +:+ QuoteIdentifier role.

Definition revokeStatement (privilege keyspace role : string) : string :=
  "REVOKE " +:+ privilege +:+ " ON KEYSPACE " +:+ QuoteIdentifier keyspace
    +:+ " FROM " +:+ QuoteIdentifier role.

Definition observeQuery (keyspace : string) : string :=
  "SELECT permissions FROM system_auth.role_permissions WHERE role = ? AND resource = 'data/"
    +:+ keyspace +:+ "'".

(** [for _, p := range l { m[p] = true }] *)
Definition markAll (m : gmap string bool) (l : list string)
  : gmap string bool :=
  foldl (fun m p => <[p := true]> m) m l.

(** The loop over the desired permissions of Observe, in the order [keys]
    in which the map is ranged over: it leaves at the first permission that
    is not observed. *)
Fixpoint checkDesired (keys : list string)
    (observedPermissions : gmap string bool) (upToDate resourceExists : bool)
  : bool * bool :=
  match keys with
  | [] => (upToDate, resourceExists)
  | p :: keys' =>
      if negb (Go.index observedPermissions p)
      then (false, resourceExists)
      else checkDesired keys' observedPermissions upToDate true
  end.

(** The loop over the status privileges of Observe. *)
Definition checkAtProvider (atProviderPrivileges : list string)
    (desiredPermissions : gmap string bool) (upToDate : bool) : bool :=
  foldl (fun upToDate p =>
           if negb (Go.index desiredPermissions p) then false else upToDate)
        upToDate atProviderPrivileges.

Definition setPrivileges (cr : Grant) (privileges : list string) : Grant :=
  {| Grant_Annotations := Grant_Annotations cr;
     Grant_ForProvider := Grant_ForProvider cr;
     Grant_AtProvider := {| AtProvider_Privileges := privileges |};
     Grant_Conditions := Grant_Conditions cr |}.

Definition setAvailable (cr : Grant) : Grant :=
  {| Grant_Annotations := Grant_Annotations cr;
     Grant_ForProvider := Grant_ForProvider cr;
     Grant_AtProvider := Grant_AtProvider cr;
     Grant_Conditions :=
       xpv1.SetConditions (Grant_Conditions cr) xpv1.Available |}.

(** Observe.  [mapRange] gives the order in which [range] visits the keys of
    a map, which Go leaves unspecified.  The deferred [iter.Close()] drops
    its result. *)
Definition Observe (mapRange : gmap string bool -> list string) (db : DB)
    (mg : Managed) : M (Outcome (Result ExternalObservation)) :=
  match mg with
  | AGrant cr =>
      match Grant_Role (Grant_ForProvider cr),
            Grant_Keyspace (Grant_ForProvider cr) with
      | Some role, Some keyspace =>
          '(iter, err) ← Query db (observeQuery keyspace) [role];
          match err with
          | Some e =>
              mret (Return (answer mg noObservation
                              (Some (Wrap e errGrantObserve))))
          | None =>
              let observedPermissions :=
                foldl markAll ∅ (scanStringLists iter) in
              let resourceExists := false in
              let privileges :=
                replaceUnderscoreWithSpace
                  (Grant_Privileges (Grant_ForProvider cr)) in
              let desiredPermissions := markAll ∅ privileges in
              let upToDate := true in
              let '(upToDate, resourceExists) :=
                checkDesired (mapRange desiredPermissions)
                  observedPermissions upToDate resourceExists in
              let atProviderPrivileges :=
                AtProvider_Privileges (Grant_AtProvider cr) in
              let upToDate :=
                checkAtProvider atProviderPrivileges desiredPermissions
                  upToDate in
              let cr := if upToDate then setPrivileges cr privileges else cr in
              let cr := if resourceExists then setAvailable cr else cr in
              mret (Return (answer (AGrant cr)
                              {| ResourceExists := resourceExists;
                                 ResourceUpToDate := upToDate;
                                 ResourceLateInitialized := false |} None))
          end
      | _, _ => mret Panic
      end
  | _ => mret (Return (answer mg noObservation (Some (New errNotGrant))))
  end.

(** The loop of Create: one GRANT per privilege, left at the first error. *)
Fixpoint createEach (db : DB) (keyspace role : string)
    (privileges : list string) : M (option error) :=
  match privileges with
  | [] => mret None
  | privilege :: privileges' =>
      err ← Exec db (grantStatement privilege keyspace role);
      match err with
      | Some e => mret (Some (Wrap e errGrantCreate))
      | None => createEach db keyspace role privileges'
      end
  end.

Definition Create (db : DB) (mg : Managed)
  : M (Outcome (Result ExternalCreation)) :=
  match mg with
  | AGrant cr =>
      match Grant_Role (Grant_ForProvider cr),
            Grant_Keyspace (Grant_ForProvider cr) with
      | Some role, Some keyspace =>
          let privileges :=
            replaceUnderscoreWithSpace
              (Grant_Privileges (Grant_ForProvider cr)) in
          err ← createEach db keyspace role privileges;
          mret (Return (answer mg noCreation err))
      | _, _ => mret Panic
      end
  | _ => mret (Return (answer mg noCreation (Some (New errNotGrant))))
  end.

(** The first loop of Update: one GRANT per privilege, each granted
    privilege recorded in [desiredPermissions]; left at the first error. *)
Fixpoint grantEach (db : DB) (keyspace role : string)
    (privileges : list string) (desiredPermissions : gmap string bool)
  : M (option error * gmap string bool) :=
  match privileges with
  | [] => mret (None, desiredPermissions)
  | privilege :: privileges' =>
      err ← Exec db (grantStatement privilege keyspace role);
      match err with
      | Some e => mret (Some (Wrap e errGrantCreate), desiredPermissions)
      | None =>
          grantEach db keyspace role privileges'
            (<[privilege := true]> desiredPermissions)
      end
  end.

(** The second loop of Update: one REVOKE per status privilege that is not
    desired; left at the first error. *)
Fixpoint revokeEach (db : DB) (keyspace role : string)
    (atProviderPrivileges : list string)
    (desiredPermissions : gmap string bool) : M (option error) :=
  match atProviderPrivileges with
  | [] => mret None
  | p :: rest =>
      if negb (Go.index desiredPermissions p)
      then
        err ← Exec db (revokeStatement p keyspace role);
        match err with
        | Some e => mret (Some (Wrap e errGrantDelete))
        | None => revokeEach db keyspace role rest desiredPermissions
        end
      else revokeEach db keyspace role rest desiredPermissions
  end.

Definition Update (db : DB) (mg : Managed)
  : M (Outcome (Result ExternalUpdate)) :=
  match mg with
  | AGrant cr =>
      match Grant_Role (Grant_ForProvider cr),
            Grant_Keyspace (Grant_ForProvider cr) with
      | Some role, Some keyspace =>
          let privileges :=
            replaceUnderscoreWithSpace
              (Grant_Privileges (Grant_ForProvider cr)) in
          '(err, desiredPermissions) ←
            grantEach db keyspace role privileges ∅;
          match err with
          | Some e => mret (Return (answer mg noUpdate (Some e)))
          | None =>
              let atProviderPrivileges :=
                AtProvider_Privileges (Grant_AtProvider cr) in
              err ← revokeEach db keyspace role atProviderPrivileges
                      desiredPermissions;
              match err with
              | Some e => mret (Return (answer mg noUpdate (Some e)))
              | None =>
                  let cr := setPrivileges cr privileges in
                  mret (Return (answer (AGrant cr) noUpdate None))
              end
          end
      | _, _ => mret Panic
      end
  | _ => mret (Return (answer mg noUpdate (Some (New errNotGrant))))
  end.

(** The loop of Delete: one REVOKE per desired privilege. *)
Fixpoint deleteEach (db : DB) (keyspace role : string)
    (privileges : list string) : M (option error) :=
  match privileges with
  | [] => mret None
  | privilege :: privileges' =>
      err ← Exec db (revokeStatement privilege keyspace role);
      match err with
      | Some e => mret (Some (Wrap e errGrantDelete))
      | None => deleteEach db keyspace role privileges'
      end
  end.

Definition Delete (db : DB) (mg : Managed) : M (Outcome (Result unit)) :=
  match mg with
  | AGrant cr =>
      match Grant_Role (Grant_ForProvider cr),
            Grant_Keyspace (Grant_ForProvider cr) with
      | Some role, Some keyspace =>
          let privileges :=
            replaceUnderscoreWithSpace
              (Grant_Privileges (Grant_ForProvider cr)) in
          err ← deleteEach db keyspace role privileges;
          mret (Return (answer mg tt err))
      | _, _ => mret Panic
      end
  | _ => mret (Return (answer mg tt (Some (New errNotGrant))))
  end.

(** An order in which Go may range over a map: its keys, each once. *)
Definition rangeOrder (mapRange : gmap string bool -> list string) : Prop :=
  forall m : gmap string bool, mapRange m ≡ₚ (map_to_list m).*1.

End grant.

(** * Vocabulary of the statements, objects and databases of the examples *)

Import errors managed v1alpha1 cassandra.
Import Go (Outcome, Panic, Return).

(** A cursor that delivers nothing. *)
Definition noRows : Iter :=
  {| scanString := None; scanBools := None; scanMapAndBoolPtr := None;
     scanStringLists := []; closeError := None |}.

(** A database on which every statement succeeds and every query yields the
    cursor [it]. *)
Definition mockDB (it : Iter) : DB :=
  {| db_Exec := fun _ _ => None;
     db_Query := fun _ _ _ => (it, None);
     db_GetConnectionDetails := fun _ _ => ∅ |}.


(** Metadata whose external-name annotation is [name]. *)
Definition named (name : string) : gmap string string :=
  {[ meta.AnnotationKeyExternalName := name ]}.

Definition aKeyspace (name : string) (p : KeyspaceParameters) : Keyspace :=
  {| Keyspace_Annotations := named name;
     Keyspace_ForProvider := p;
     Keyspace_ObservableField := EmptyString;
     Keyspace_Conditions := [] |}.

Definition aRole (name : string) (su lg : option bool) : Role :=
  {| Role_Annotations := named name;
     Role_ForProvider :=
       {| Role_Privileges := {| SuperUser := su; Login := lg |} |};
     Role_Conditions := [] |}.

Definition aGrant (privileges status : list string) : Grant :=
  {| Grant_Annotations := named "example_grant";
     Grant_ForProvider :=
       {| Grant_Privileges := privileges;
          Grant_Role := Some "example_role"%string;
          Grant_Keyspace := Some "example_keyspace"%string |};
     Grant_AtProvider := {| AtProvider_Privileges := status |};
     Grant_Conditions := [] |}.

(** A cursor over one keyspace row: it serves both the existence scan and
    the details scan. *)
Definition keyspaceRow (class factor : string) (durable : option bool)
  : Iter :=
  {| scanString := Some "example_keyspace"%string;
     scanBools := None;
     scanMapAndBoolPtr :=
       Some (<["class"%string := class]>
               (<["replication_factor"%string := factor]> ∅), durable);
     scanStringLists := [];
     closeError := None |}.

(** A cursor over one role row. *)
Definition roleRow (isSuperuser canLogin : bool) : Iter :=
  {| scanString := None;
     scanBools := Some (isSuperuser, canLogin);
     scanMapAndBoolPtr := None;
     scanStringLists := [];
     closeError := None |}.

(** The GRANT and the REVOKE calls for the privileges [l], in order. *)
Definition granted (keyspace role : string) (l : list string) : Trace :=
  map (fun p => CExec (grant.grantStatement p keyspace role)) l.

Definition revoked (keyspace role : string) (l : list string) : Trace :=
  map (fun p => CExec (grant.revokeStatement p keyspace role)) l.

(** Every GRANT for [l] is accepted when the GRANTs are sent in order,
    starting from the trace [h]. *)
Definition grantsAccepted (db : DB) (keyspace role : string) (h : Trace)
    (l : list string) : Prop :=
  forall (k : nat) (q : string),
    l !! k = Some q ->
    db_Exec db (h ++ granted keyspace role (take k l))
      (grant.grantStatement q keyspace role) = None.

(** A database that rejects the statement [bad] with the error [e], accepts
    every other statement and answers every query with the cursor [it]. *)
Definition rejectingDB (bad : string) (e : error) (it : Iter) : DB :=
  {| db_Exec := fun _ s => if String.eqb s bad then Some e else None;
     db_Query := fun _ _ _ => (it, None);
     db_GetConnectionDetails := fun _ _ => ∅ |}.

(** The text of a statement whose pieces are joined by double quotes. *)
Definition quoting (pieces : list string) : string :=
  String.concat (String Go.dquote EmptyString) pieces.

(** A cursor over rows of the permissions column. *)
Definition permissionRows (rows : list (list string)) : Iter :=
  {| scanString := None;
     scanBools := None;
     scanMapAndBoolPtr := None;
     scanStringLists := rows;
     closeError := None |}.

(** Two orders in which a map may be ranged over, one the reverse of the
    other. *)
Definition rangeForward (m : gmap string bool) : list string :=
  (map_to_list m).*1.

Definition rangeBackward (m : gmap string bool) : list string :=
  reverse (map_to_list m).*1.

(** A cursor over one keyspace row whose details scan delivers the
    replication map [m] and the durable-writes pointer [durable]. *)
Definition keyspaceRowOf (m : gmap string string) (durable : option bool)
  : Iter :=
  {| scanString := Some "example_keyspace"%string;
     scanBools := None;
     scanMapAndBoolPtr := Some (m, durable);
     scanStringLists := [];
     closeError := None |}.

(** The prefix Observe of a Keyspace removes from the replication class. *)
Definition locatorPrefix : string := "org.apache.cassandra.locator.".

(** From the trace [h] on, the database reports a keyspace [name]: the
    existence query yields a row, and the details query a row with the
    replication map [m] and the durable-writes pointer [durable]. *)
Definition keyspaceAnswers (db : DB) (h : Trace) (name : string)
    (m : gmap string string) (durable : option bool) : Prop :=
  exists (existsIter detailsIter : Iter) (keyspaceName : string),
    db_Query db h keyspace.existsQuery [name] = (existsIter, None)
    /\ scanString existsIter = Some keyspaceName
    /\ db_Query db (h ++ [CQuery keyspace.existsQuery [name]])
         keyspace.detailsQuery [name] = (detailsIter, None)
    /\ scanMapAndBoolPtr detailsIter = Some (m, durable).

(** From the trace [h] on, the database reports a role [name] with the
    flags [isSuperuser] and [canLogin]. *)
Definition roleAnswers (db : DB) (h : Trace) (name : string)
    (isSuperuser canLogin : bool) : Prop :=
  exists iter : Iter,
    db_Query db h role.selectQuery [name] = (iter, None)
    /\ scanBools iter = Some (isSuperuser, canLogin).

(** Every REVOKE for [l] is accepted when the REVOKEs are sent in order,
    starting from the trace [h]. *)
Definition revokesAccepted (db : DB) (keyspace role : string) (h : Trace)
    (l : list string) : Prop :=
  forall (k : nat) (q : string),
    l !! k = Some q ->
    db_Exec db (h ++ revoked keyspace role (take k l))
      (grant.revokeStatement q keyspace role) = None.

(** * Properties *)

(** ** Running the database computations *)

Lemma bind_run {A B : Type} (m : M A) (f : A -> M B) (h : Trace) :
  (m ≫= f) h = f (m h).1 (m h).2.
Proof. unfold mbind, M_bind. by destruct (m h). Qed.

Lemma ret_run {A : Type} (a : A) (h : Trace) : (mret a : M A) h = (a, h).
Proof. done. Qed.

Lemma Exec_run (db : DB) (s : string) (h : Trace) :
  Exec db s h = (db_Exec db h s, h ++ [CExec s]).
Proof. done. Qed.

Lemma Query_run (db : DB) (s : string) (args : list string) (h : Trace) :
  Query db s args h = (db_Query db h s args, h ++ [CQuery s args]).
Proof. done. Qed.

Ltac run :=
  repeat (rewrite ?bind_run, ?ret_run, ?Exec_run, ?Query_run; cbn [fst snd]).

(** ** Kind mismatch *)

(** C7: an object that is not of the reconciler's kind (the nil interface
    included) makes each of Observe, Create, Update and Delete of the
    Keyspace, Role and Grant reconcilers return the kind-mismatch error with
    the zero result; the trace of database calls and the object are as they
    were. *)
Theorem kind_mismatch_is_error_without_effect
    (mapRange : gmap string bool -> list string)
    (generated : string * option error) (db : DB) (mg : Managed)
    (h : Trace) :
  ((forall cr, mg <> AKeyspace cr) ->
     keyspace.Observe db mg h
       = (answer mg noObservation (Some (New keyspace.errNotKeyspace)), h)
     /\ keyspace.Create db mg h
       = (answer mg noCreation (Some (New keyspace.errNotKeyspace)), h)
     /\ keyspace.Update db mg h
       = (answer mg noUpdate (Some (New keyspace.errNotKeyspace)), h)
     /\ keyspace.Delete db mg h
       = (answer mg tt (Some (New keyspace.errNotKeyspace)), h))
  /\ ((forall cr, mg <> ARole cr) ->
     role.Observe db mg h
       = (answer mg noObservation (Some (New role.errNotRole)), h)
     /\ role.Create generated db mg h
       = (answer mg noCreation (Some (New role.errNotRole)), h)
     /\ role.Update db mg h
       = (answer mg noUpdate (Some (New role.errNotRole)), h)
     /\ role.Delete db mg h
       = (answer mg tt (Some (New role.errNotRole)), h))
  /\ ((forall cr, mg <> AGrant cr) ->
     grant.Observe mapRange db mg h
       = (Return (answer mg noObservation (Some (New grant.errNotGrant))), h)
     /\ grant.Create db mg h
       = (Return (answer mg noCreation (Some (New grant.errNotGrant))), h)
     /\ grant.Update db mg h
       = (Return (answer mg noUpdate (Some (New grant.errNotGrant))), h)
     /\ grant.Delete db mg h
       = (Return (answer mg tt (Some (New grant.errNotGrant))), h)).
Proof.
  repeat split; destruct mg as [|k|r|g|kind]; try done;
    by (exfalso; eapply H).
Qed.

Lemma kind_mismatch_is_error_without_effect_witness :
  keyspace.Observe (mockDB noRows) NilManaged []
    = (answer NilManaged noObservation
         (Some (New "managed resource is not a Keyspace custom resource")), [])
  /\ role.Delete (mockDB noRows) (Other "ProviderConfig") []
    = (answer (Other "ProviderConfig") tt
         (Some (New "managed resource is not a Role custom resource")), [])
  /\ grant.Update (mockDB noRows) NilManaged []
    = (Return (answer NilManaged noUpdate
         (Some (New "managed resource is not a Grant custom resource"))), []).
Proof.
  split; [|split].
  - apply (kind_mismatch_is_error_without_effect
             (fun m => (map_to_list m).*1) (EmptyString, None)
             (mockDB noRows) NilManaged []).
    intros cr; discriminate.
  - apply (kind_mismatch_is_error_without_effect
             (fun m => (map_to_list m).*1) (EmptyString, None)
             (mockDB noRows) (Other "ProviderConfig") []).
    intros cr; discriminate.
  - apply (kind_mismatch_is_error_without_effect
             (fun m => (map_to_list m).*1) (EmptyString, None)
             (mockDB noRows) NilManaged []).
    intros cr; discriminate.
Defined.

(** ** Absence *)

(** C6: when the existence query of the Keyspace or of the Role reconciler
    succeeds and the scan finds no row, Observe returns exists = false and
    upToDate = false with a nil error, whatever closing the cursor yields;
    the object is as it was. *)
Theorem absence_is_not_an_error (db : DB) (h : Trace) (it : Iter) :
  (forall cr : Keyspace,
     let name := meta.GetExternalName (Keyspace_Annotations cr) in
     db_Query db h keyspace.existsQuery [name] = (it, None) ->
     scanString it = None ->
     keyspace.Observe db (AKeyspace cr) h
       = (answer (AKeyspace cr)
            {| ResourceExists := false;
               ResourceUpToDate := false;
               ResourceLateInitialized := false |} None,
          h ++ [CQuery keyspace.existsQuery [name]]))
  /\ (forall cr : Role,
     let name := meta.GetExternalName (Role_Annotations cr) in
     db_Query db h role.selectQuery [name] = (it, None) ->
     scanBools it = None ->
     role.Observe db (ARole cr) h
       = (answer (ARole cr)
            {| ResourceExists := false;
               ResourceUpToDate := false;
               ResourceLateInitialized := false |} None,
          h ++ [CQuery role.selectQuery [name]])).
Proof.
  split; intros cr name Hquery Hscan.
  - unfold keyspace.Observe. run. fold name. rewrite Hquery. cbn.
    by rewrite Hscan.
  - unfold role.Observe. run. fold name. rewrite Hquery. cbn.
    by rewrite Hscan.
Qed.

Lemma absence_is_not_an_error_witness :
  err (keyspace.Observe (mockDB noRows)
         (AKeyspace (aKeyspace "ks" {| ReplicationClass := None;
                                       ReplicationFactor := Some 2;
                                       DurableWrites := None |})) []).1
    = None
  /\ ResourceExists
       (result (role.Observe (mockDB noRows)
                  (ARole (aRole "r" (Some true) None)) []).1) = false.
Proof.
  split.
  - rewrite (proj1 (absence_is_not_an_error (mockDB noRows) [] noRows));
      reflexivity.
  - rewrite (proj2 (absence_is_not_an_error (mockDB noRows) [] noRows));
      reflexivity.
Defined.

(** ** Keyspace statements *)

Lemma ReplaceAllWith_absent (s : string) (old : ascii) (new : string) :
  (forall n, String.get n s <> Some old) ->
  Go.ReplaceAllWith s old new = s.
Proof.
  induction s as [|c s IH]; intros Habsent; [done|].
  cbn. destruct (Ascii.eqb_spec c old) as [->|_].
  - by destruct (Habsent 0%nat).
  - f_equal. apply IH. intros n. apply (Habsent (S n)).
Qed.

(** C5: Create of a Keyspace sends exactly one statement,
    CREATE KEYSPACE IF NOT EXISTS followed by the quoted identity and the
    replication / durable-writes clause, with "SimpleStrategy", 1 and true
    in place of unset attributes and the boolean rendered as true / false;
    Update sends ALTER KEYSPACE with the same identity and clause.  The
    quoted identity starts and ends with a double quote, and is the identity
    between double quotes when the identity has none. *)
Theorem keyspace_Create_Update_statement (db : DB) (cr : Keyspace)
    (h : Trace) :
  let id := meta.GetExternalName (Keyspace_Annotations cr) in
  let class := default "SimpleStrategy"%string
                 (ReplicationClass (Keyspace_ForProvider cr)) in
  let factor := default 1 (ReplicationFactor (Keyspace_ForProvider cr)) in
  let durable := default true (DurableWrites (Keyspace_ForProvider cr)) in
  let clause :=
    " WITH replication = {'class': '" +:+ class
      +:+ "', 'replication_factor': " +:+ Go.Itoa factor
      +:+ "} AND durable_writes = "
      +:+ (if durable then "true" else "false") in
  (keyspace.Create db (AKeyspace cr) h).2
    = h ++ [CExec ("CREATE KEYSPACE IF NOT EXISTS "
                     +:+ QuoteIdentifier id +:+ clause)]
  /\ (keyspace.Update db (AKeyspace cr) h).2
    = h ++ [CExec ("ALTER KEYSPACE " +:+ QuoteIdentifier id +:+ clause)]
  /\ (exists body,
        QuoteIdentifier id
          = String Go.dquote (body +:+ String Go.dquote EmptyString)
        /\ ((forall n, String.get n id <> Some Go.dquote) -> body = id)).
Proof.
  intros id class factor durable clause. subst clause class factor durable.
  destruct cr as [ann [[c|] [f|] [w|]] field conds]; cbn in id |- *.
  all: repeat split.
  all: try (unfold keyspace.Create, keyspace.Update; run; cbn;
            by destruct (db_Exec db h _)).
  all: eexists; split; [reflexivity|]; apply ReplaceAllWith_absent.
Qed.

Lemma keyspace_Create_Update_statement_witness :
  (keyspace.Create (mockDB noRows)
     (AKeyspace (aKeyspace "name" {| ReplicationClass := None;
                                     ReplicationFactor := Some 3;
                                     DurableWrites := Some false |})) []).2
  = [CExec (String.concat (String Go.dquote EmptyString)
      ["CREATE KEYSPACE IF NOT EXISTS "; "name";
       " WITH replication = {'class': 'SimpleStrategy', 'replication_factor': 3} AND durable_writes = false"])].
Proof.
  rewrite (proj1 (keyspace_Create_Update_statement (mockDB noRows)
                    (aKeyspace "name" {| ReplicationClass := None;
                                         ReplicationFactor := Some 3;
                                         DurableWrites := Some false |}) [])).
  reflexivity.
Defined.

(** ** Late initialization and drift *)

Lemma keyspace_lateInit_spec (observed desired : KeyspaceParameters) :
  keyspace.lateInit observed desired
  = (bool_decide (ReplicationClass desired = None
                  \/ ReplicationFactor desired = None
                  \/ DurableWrites desired = None),
     {| ReplicationClass :=
          match ReplicationClass desired with
          | Some c => Some c
          | None => ReplicationClass observed
          end;
        ReplicationFactor :=
          match ReplicationFactor desired with
          | Some f => Some f
          | None => ReplicationFactor observed
          end;
        DurableWrites :=
          match DurableWrites desired with
          | Some w => Some w
          | None => DurableWrites observed
          end |}).
Proof. by destruct desired as [[c|] [f|] [w|]]. Qed.

Lemma keyspace_upToDate_spec (observed desired : KeyspaceParameters) :
  keyspace.upToDate observed desired = true
  <-> exists c f w,
        observed = {| ReplicationClass := Some c;
                      ReplicationFactor := Some f;
                      DurableWrites := Some w |}
        /\ desired = observed.
Proof.
  unfold keyspace.upToDate, keyspace.differ.
  destruct observed as [oc orf ow], desired as [dc drf dw]; cbn.
  split.
  - destruct oc as [oc|], dc as [dc|]; try discriminate.
    destruct (String.eqb_spec oc dc) as [->|]; cbn; try discriminate.
    destruct orf as [orf|], drf as [drf|]; try discriminate.
    destruct (Z.eqb_spec orf drf) as [->|]; cbn; try discriminate.
    destruct ow as [[]|], dw as [[]|]; try discriminate; eauto.
  - intros (c & f & w & [= -> -> ->] & [= -> -> ->]).
    rewrite String.eqb_refl, Z.eqb_refl. by destruct w.
Qed.

(** C4: for a Keyspace that exists, Observe fills each unset desired
    attribute from the observed one before it compares, and reports
    lateInitialized = true exactly when an attribute was unset; upToDate is
    true exactly when, after the filling, the observed and the desired
    class, factor and durable-writes flag are all set and equal.  So when
    every desired attribute is either unset or equal to the observed one and
    the observed flag was scanned, upToDate is true, together with
    lateInitialized = true when an attribute was unset. *)
Theorem keyspace_Observe_fills_then_compares (db : DB) (cr : Keyspace)
    (h : Trace) (existsIter detailsIter : Iter) (keyspaceName : string)
    (replicationMap : gmap string string) (durableWrites : option bool) :
  let name := meta.GetExternalName (Keyspace_Annotations cr) in
  let desired := Keyspace_ForProvider cr in
  let observed := keyspace.observedParameters replicationMap durableWrites in
  db_Query db h keyspace.existsQuery [name] = (existsIter, None) ->
  scanString existsIter = Some keyspaceName ->
  db_Query db (h ++ [CQuery keyspace.existsQuery [name]])
    keyspace.detailsQuery [name] = (detailsIter, None) ->
  scanMapAndBoolPtr detailsIter = Some (replicationMap, durableWrites) ->
  exists (cr' : Keyspace) (upToDate lateInitialized : bool),
    (keyspace.Observe db (AKeyspace cr) h).1
      = answer (AKeyspace cr')
          {| ResourceExists := true;
             ResourceUpToDate := upToDate;
             ResourceLateInitialized := lateInitialized |} None
    /\ ReplicationClass (Keyspace_ForProvider cr')
         = match ReplicationClass desired with
           | Some c => Some c
           | None => ReplicationClass observed
           end
    /\ ReplicationFactor (Keyspace_ForProvider cr')
         = match ReplicationFactor desired with
           | Some f => Some f
           | None => ReplicationFactor observed
           end
    /\ DurableWrites (Keyspace_ForProvider cr')
         = match DurableWrites desired with
           | Some w => Some w
           | None => DurableWrites observed
           end
    /\ (lateInitialized = true
        <-> ReplicationClass desired = None
            \/ ReplicationFactor desired = None
            \/ DurableWrites desired = None)
    /\ (upToDate = true
        <-> exists c f w,
              observed = {| ReplicationClass := Some c;
                            ReplicationFactor := Some f;
                            DurableWrites := Some w |}
              /\ Keyspace_ForProvider cr' = observed)
    /\ (durableWrites <> None ->
        (ReplicationClass desired = None
         \/ ReplicationClass desired = ReplicationClass observed) ->
        (ReplicationFactor desired = None
         \/ ReplicationFactor desired = ReplicationFactor observed) ->
        (DurableWrites desired = None
         \/ DurableWrites desired = DurableWrites observed) ->
        upToDate = true).
Proof.
  intros name desired observed Hq1 Hs1 Hq2 Hs2.
  unfold keyspace.Observe. run. fold name. rewrite Hq1. cbn.
  rewrite Hs1. run. rewrite Hq2. cbn. rewrite Hs2.
  fold observed. cbn [keyspace.setAvailable Keyspace_ForProvider].
  fold desired. rewrite keyspace_lateInit_spec. run.
  eexists _, _, _. split; [reflexivity|].
  cbn [keyspace.setForProvider Keyspace_ForProvider ReplicationClass
       ReplicationFactor DurableWrites].
  repeat split; try done.
  - apply bool_decide_eq_true_1.
  - apply bool_decide_eq_true_2.
  - by intros ?%keyspace_upToDate_spec.
  - by intros ?%keyspace_upToDate_spec.
  - intros Hscanned Hc Hf Hw. apply keyspace_upToDate_spec.
    destruct durableWrites as [w|]; [|done].
    eexists _, _, w. split; [reflexivity|].
    subst observed. unfold keyspace.observedParameters in *.
    destruct desired as [dc df dw]. cbn in Hc, Hf, Hw |- *.
    f_equal; [by destruct dc, Hc | by destruct df, Hf | by destruct dw, Hw].
Qed.

Lemma keyspace_Observe_fills_then_compares_witness :
  result (keyspace.Observe (mockDB (keyspaceRow "SimpleStrategy" "2" (Some true)))
            (AKeyspace (aKeyspace "example_keyspace"
                          {| ReplicationClass := Some "SimpleStrategy"%string;
                             ReplicationFactor := None;
                             DurableWrites := Some true |})) []).1
  = {| ResourceExists := true;
       ResourceUpToDate := true;
       ResourceLateInitialized := true |}.
Proof.
  destruct (keyspace_Observe_fills_then_compares
              (mockDB (keyspaceRow "SimpleStrategy" "2" (Some true)))
              (aKeyspace "example_keyspace"
                 {| ReplicationClass := Some "SimpleStrategy"%string;
                    ReplicationFactor := None;
                    DurableWrites := Some true |})
              [] (keyspaceRow "SimpleStrategy" "2" (Some true))
              (keyspaceRow "SimpleStrategy" "2" (Some true))
              "example_keyspace"
              (<["class"%string := "SimpleStrategy"%string]>
                 (<["replication_factor"%string := "2"%string]> ∅))
              (Some true)
              eq_refl eq_refl eq_refl eq_refl)
    as (cr' & u & l & Hrun & _ & _ & _ & Hl & _ & Hu).
  rewrite Hrun. cbn.
  rewrite (proj2 Hl) by (right; left; reflexivity).
  rewrite Hu; [reflexivity|discriminate|right; reflexivity|left; reflexivity
              |right; reflexivity].
Defined.

Lemma role_lateInit_spec (observed desired : RoleParameters) :
  role.lateInit observed desired
  = (bool_decide (SuperUser (Role_Privileges desired) = None
                  \/ Login (Role_Privileges desired) = None),
     {| Role_Privileges :=
          {| SuperUser :=
               match SuperUser (Role_Privileges desired) with
               | Some b => Some b
               | None => SuperUser (Role_Privileges observed)
               end;
             Login :=
               match Login (Role_Privileges desired) with
               | Some b => Some b
               | None => Login (Role_Privileges observed)
               end |} |}).
Proof. by destruct desired as [[[s|] [l|]]]. Qed.

(** C8, as the code has it: for a Role whose query yields a row, Observe
    fills the unset desired booleans from the row and reports
    lateInitialized = true exactly when one of them was unset; it reports
    upToDate = true exactly when every desired boolean that was set equals
    the observed one. *)
Theorem role_Observe_fills_then_compares (db : DB) (cr : Role) (h : Trace)
    (iter : Iter) (isSuperuser canLogin : bool) :
  let name := meta.GetExternalName (Role_Annotations cr) in
  let desired := Role_Privileges (Role_ForProvider cr) in
  db_Query db h role.selectQuery [name] = (iter, None) ->
  scanBools iter = Some (isSuperuser, canLogin) ->
  exists (cr' : Role) (upToDate lateInitialized : bool),
    (role.Observe db (ARole cr) h).1
      = answer (ARole cr')
          {| ResourceExists := true;
             ResourceUpToDate := upToDate;
             ResourceLateInitialized := lateInitialized |} None
    /\ SuperUser (Role_Privileges (Role_ForProvider cr'))
         = Some (default isSuperuser (SuperUser desired))
    /\ Login (Role_Privileges (Role_ForProvider cr'))
         = Some (default canLogin (Login desired))
    /\ (lateInitialized = true
        <-> SuperUser desired = None \/ Login desired = None)
    /\ (upToDate = true
        <-> (SuperUser desired = None \/ SuperUser desired = Some isSuperuser)
            /\ (Login desired = None \/ Login desired = Some canLogin)).
Proof.
  intros name desired Hquery Hscan.
  unfold role.Observe. run. fold name. rewrite Hquery. cbn.
  rewrite Hscan. cbn [role.setAvailable Role_ForProvider].
  rewrite role_lateInit_spec. run.
  eexists _, _, _. split; [reflexivity|].
  cbn [role.setForProvider Role_ForProvider Role_Privileges SuperUser Login].
  fold desired.
  split; [by destruct (SuperUser desired)|].
  split; [by destruct (Login desired)|].
  split; [split; [apply bool_decide_eq_true_1 | apply bool_decide_eq_true_2]|].
  unfold role.upToDate, role.differ. cbn.
  destruct (SuperUser desired) as [[]|], (Login desired) as [[]|],
    isSuperuser, canLogin; cbn; intuition congruence.
Qed.

Lemma role_Observe_fills_then_compares_witness :
  result (role.Observe (mockDB (roleRow false true))
            (ARole (aRole "example_role" (Some false) None)) []).1
  = {| ResourceExists := true;
       ResourceUpToDate := true;
       ResourceLateInitialized := true |}.
Proof.
  destruct (role_Observe_fills_then_compares
              (mockDB (roleRow false true))
              (aRole "example_role" (Some false) None) []
              (roleRow false true) false true eq_refl eq_refl)
    as (cr' & u & l & Hrun & _ & _ & Hl & Hu).
  rewrite Hrun. cbn.
  rewrite (proj2 Hl) by (right; reflexivity).
  rewrite (proj2 Hu) by (split; [right|left]; reflexivity).
  reflexivity.
Defined.

(** C8 as it was stated fails: the desired login flag is unset, the desired
    superuser flag is set to true and the row has superuser = false; the
    query yields a row, yet Observe reports upToDate = false (next to
    lateInitialized = true). *)
Lemma role_Observe_unset_flag_not_upToDate :
  Login (Role_Privileges (Role_ForProvider
           (aRole "example_role" (Some true) None))) = None
  /\ scanBools (roleRow false true) = Some (false, true)
  /\ (role.Observe (mockDB (roleRow false true))
        (ARole (aRole "example_role" (Some true) None)) []).1
     = answer (ARole {| Role_Annotations := named "example_role";
                        Role_ForProvider :=
                          {| Role_Privileges :=
                               {| SuperUser := Some true;
                                  Login := Some true |} |};
                        Role_Conditions := [xpv1.Available] |})
         {| ResourceExists := true;
            ResourceUpToDate := false;
            ResourceLateInitialized := true |} None.
Proof. repeat split. Qed.

(** ** Grant: the permission maps *)

Lemma markAll_lookup (l : list string) (m : gmap string bool) (p : string) :
  grant.markAll m l !! p = if decide (p ∈ l) then Some true else m !! p.
Proof.
  revert m. induction l as [|q l IH]; intros m; cbn.
  - by rewrite decide_False by apply not_elem_of_nil.
  - change (grant.markAll (<[q:=true]> m) l !! p
            = if decide (p ∈ q :: l) then Some true else m !! p).
    rewrite IH. destruct (decide (p ∈ l)) as [Hin|Hout].
    + by rewrite decide_True by (by right).
    + destruct (decide (p = q)) as [->|Hne].
      * rewrite lookup_insert_eq. by rewrite decide_True by left.
      * rewrite lookup_insert_ne by done.
        by rewrite decide_False by (intros [?|?]%elem_of_cons; done).
Qed.

Lemma index_markAll (l : list string) (p : string) :
  Go.index (grant.markAll ∅ l) p = bool_decide (p ∈ l).
Proof.
  unfold Go.index. rewrite markAll_lookup, lookup_empty.
  by destruct (decide (p ∈ l));
    [rewrite bool_decide_eq_true_2 | rewrite bool_decide_eq_false_2].
Qed.

Lemma markAll_app (m : gmap string bool) (l k : list string) :
  grant.markAll m (l ++ k) = grant.markAll (grant.markAll m l) k.
Proof. apply foldl_app. Qed.

Lemma observed_concat (rows : list (list string)) (m : gmap string bool) :
  foldl grant.markAll m rows = grant.markAll m (concat rows).
Proof.
  revert m. induction rows as [|row rows IH]; intros m; cbn; [done|].
  by rewrite IH, markAll_app.
Qed.

Lemma index_observed (rows : list (list string)) (p : string) :
  Go.index (foldl grant.markAll ∅ rows) p = bool_decide (p ∈ concat rows).
Proof. by rewrite observed_concat, index_markAll. Qed.

(** ** Grant: the statement loops *)

Section GrantLoops.

Variables (db : DB) (keyspace role : string).

Local Abbreviation granted := (granted keyspace role).
Local Abbreviation revoked := (revoked keyspace role).
Local Abbreviation grantsAccepted := (grantsAccepted db keyspace role).

Lemma grantsAccepted_cons (h : Trace) (p : string) (l : list string) :
  grantsAccepted h (p :: l) ->
  db_Exec db h (grant.grantStatement p keyspace role) = None
  /\ grantsAccepted (h ++ granted [p]) l.
Proof.
  intros Hacc. split.
  - specialize (Hacc 0%nat p eq_refl). cbn in Hacc.
    by rewrite app_nil_r in Hacc.
  - intros k q Hk. specialize (Hacc (S k) q Hk). cbn in Hacc.
    by rewrite <- app_assoc.
Qed.

Lemma createEach_stops (pre rest : list string) (p : string) (e : error)
    (h : Trace) :
  grantsAccepted h pre ->
  db_Exec db (h ++ granted pre) (grant.grantStatement p keyspace role)
    = Some e ->
  grant.createEach db keyspace role (pre ++ p :: rest) h
  = (Some (Wrap e grant.errGrantCreate), h ++ granted pre ++ granted [p]).
Proof.
  revert h. induction pre as [|q pre IH]; intros h Hacc Hfail; cbn.
  - run. cbn in Hfail. rewrite app_nil_r in Hfail. by rewrite Hfail.
  - apply grantsAccepted_cons in Hacc as [Hq Hacc]. run. rewrite Hq.
    rewrite (IH (h ++ [_]) Hacc) by (by rewrite <- app_assoc).
    by rewrite <- !app_assoc.
Qed.

Lemma grantEach_stops (pre rest : list string) (p : string) (e : error)
    (m : gmap string bool) (h : Trace) :
  grantsAccepted h pre ->
  db_Exec db (h ++ granted pre) (grant.grantStatement p keyspace role)
    = Some e ->
  grant.grantEach db keyspace role (pre ++ p :: rest) m h
  = ((Some (Wrap e grant.errGrantCreate), grant.markAll m pre),
     h ++ granted pre ++ granted [p]).
Proof.
  revert h m. induction pre as [|q pre IH]; intros h m Hacc Hfail; cbn.
  - run. cbn in Hfail. rewrite app_nil_r in Hfail. by rewrite Hfail.
  - apply grantsAccepted_cons in Hacc as [Hq Hacc]. run. rewrite Hq.
    rewrite (IH (h ++ [_]) _ Hacc) by (by rewrite <- app_assoc).
    by rewrite <- !app_assoc.
Qed.

Lemma grantEach_done (l : list string) (m m' : gmap string bool)
    (h h' : Trace) :
  grant.grantEach db keyspace role l m h = ((None, m'), h') ->
  h' = h ++ granted l /\ m' = grant.markAll m l.
Proof.
  revert m h. induction l as [|p l IH]; intros m h; cbn.
  - intros [= <- <-]. by rewrite app_nil_r.
  - run. destruct (db_Exec db h _) as [e|]; [done|].
    intros [-> ->]%IH. by rewrite <- app_assoc.
Qed.

Lemma grantEach_error (l : list string) (m m' : gmap string bool)
    (e : error) (h h' : Trace) :
  grant.grantEach db keyspace role l m h = ((Some e, m'), h') ->
  exists pre, h' = h ++ granted pre.
Proof.
  revert m h. induction l as [|p l IH]; intros m h; cbn.
  - done.
  - run. destruct (db_Exec db h _) as [e0|].
    + intros [= <- <- <-]. by exists [p].
    + intros [pre ->]%IH. exists (p :: pre). by rewrite <- app_assoc.
Qed.

Lemma grantEach_accepted (l : list string) (m : gmap string bool)
    (h : Trace) :
  grantsAccepted h l ->
  grant.grantEach db keyspace role l m h
  = ((None, grant.markAll m l), h ++ granted l).
Proof.
  revert m h. induction l as [|p l IH]; intros m h Hacc; cbn.
  - by rewrite app_nil_r.
  - apply grantsAccepted_cons in Hacc as [Hp Hacc]. run. rewrite Hp.
    rewrite (IH _ _ Hacc). by rewrite <- app_assoc.
Qed.

Lemma revokeEach_done (l : list string) (m : gmap string bool)
    (h h' : Trace) :
  grant.revokeEach db keyspace role l m h = (None, h') ->
  h' = h ++ revoked (filter (fun p => Go.index m p = false) l).
Proof.
  revert h. induction l as [|p l IH]; intros h.
  - cbn. intros [= <-]. by rewrite app_nil_r.
  - rewrite filter_cons. cbn [grant.revokeEach].
    destruct (Go.index m p) eqn:Hp; cbn [negb].
    + rewrite decide_False by done. apply IH.
    + rewrite decide_True by done. run.
      destruct (db_Exec db h _) as [e|]; [done|].
      intros ->%IH. cbn. by rewrite <- app_assoc.
Qed.

Lemma revokeEach_accepted (l : list string) (m : gmap string bool)
    (h : Trace) :
  (forall h s, db_Exec db h s = None) ->
  (grant.revokeEach db keyspace role l m h).1 = None.
Proof.
  intros Hall. revert h. induction l as [|p l IH]; intros h; cbn; [done|].
  destruct (Go.index m p); cbn; [apply IH|]. run. rewrite Hall. apply IH.
Qed.

End GrantLoops.

(** ** Grant: Update and Create *)

(** C1: a successful Update of a Grant has sent one GRANT per desired
    privilege, each with its underscores replaced by spaces, then one REVOKE
    per status privilege that is not among these, and nothing else, and has
    set the status privileges to the normalized desired list; and Update is
    successful whenever the database accepts the statements. *)
Theorem grant_Update_grants_then_revokes (db : DB) (cr : Grant)
    (role keyspace : string) (h : Trace) :
  let D :=
    map (fun p => Go.ReplaceAll p "_" " ")
      (Grant_Privileges (Grant_ForProvider cr)) in
  let S := AtProvider_Privileges (Grant_AtProvider cr) in
  Grant_Role (Grant_ForProvider cr) = Some role ->
  Grant_Keyspace (Grant_ForProvider cr) = Some keyspace ->
  (forall (r : Result ExternalUpdate) (h' : Trace),
     grant.Update db (AGrant cr) h = (Return r, h') ->
     err r = None ->
     h' = h ++ granted keyspace role D
            ++ revoked keyspace role (filter (fun p => p ∉ D) S)
     /\ object r
        = AGrant {| Grant_Annotations := Grant_Annotations cr;
                    Grant_ForProvider := Grant_ForProvider cr;
                    Grant_AtProvider := {| AtProvider_Privileges := D |};
                    Grant_Conditions := Grant_Conditions cr |})
  /\ ((forall h0 s, db_Exec db h0 s = None) ->
      exists (r : Result ExternalUpdate) (h' : Trace),
        grant.Update db (AGrant cr) h = (Return r, h') /\ err r = None).
Proof.
  intros D S Hrole Hkeyspace. unfold grant.Update. rewrite Hrole, Hkeyspace.
  fold (grant.replaceUnderscoreWithSpace
          (Grant_Privileges (Grant_ForProvider cr))) in D.
  fold D S. split.
  - intros r h'. run.
    destruct (grant.grantEach db keyspace role D ∅ h) as [[[e|] m] h1] eqn:Hg;
      cbn [fst snd]; run.
    { intros [= <- <-]; by cbn. }
    apply grantEach_done in Hg as [-> ->].
    destruct (grant.revokeEach db keyspace role S _ _) as [[e|] h2] eqn:Hr;
      cbn [fst snd]; run.
    { intros [= <- <-]; by cbn. }
    apply revokeEach_done in Hr as ->.
    intros [= <- <-] _. split; [|done].
    rewrite <- app_assoc. do 3 f_equal. apply list_filter_iff.
    intros p. rewrite index_markAll. apply bool_decide_eq_false.
  - intros Hall. eexists _, _. run.
    rewrite grantEach_accepted by (intros k q _; apply Hall).
    cbn [fst snd]. run.
    rewrite (revokeEach_accepted db keyspace role S _ _ Hall). run.
    split; reflexivity.
Qed.

Lemma grant_Update_grants_then_revokes_witness :
  (grant.Update (mockDB noRows) (AGrant (aGrant ["SELECT"] ["MODIFY"])) []).2
  = [CExec (quoting ["GRANT SELECT ON KEYSPACE "; "example_keyspace";
                     " TO "; "example_role"; EmptyString]);
     CExec (quoting ["REVOKE MODIFY ON KEYSPACE "; "example_keyspace";
                     " FROM "; "example_role"; EmptyString])]
  /\ (grant.Update (mockDB noRows) (AGrant (aGrant ["SELECT"] ["MODIFY"])) []).1
     = Return (answer (AGrant (aGrant ["SELECT"] ["SELECT"])) noUpdate None).
Proof.
  destruct (grant_Update_grants_then_revokes (mockDB noRows)
              (aGrant ["SELECT"] ["MODIFY"]) "example_role" "example_keyspace"
              [] eq_refl eq_refl) as [Hsent Hruns].
  destruct (Hruns (fun _ _ => eq_refl)) as (r & h' & Hrun & Hok).
  destruct (Hsent r h' Hrun Hok) as [Htrace Hobject].
  rewrite Hrun. cbn [fst snd]. split; [by rewrite Htrace|].
  destruct r as [o [c] e]. cbn in Hobject, Hok. subst o e.
  f_equal. f_equal. vm_compute in Hrun. by injection Hrun as <- _.
Defined.

(** C9: when a GRANT of Create or of Update is rejected, the GRANTs before
    it having been accepted, the operation returns that error wrapped in the
    creation label and has sent the GRANTs up to the rejected one and nothing
    after it, so no REVOKE; Create never changes the object, and Update
    leaves it (its status privileges included) as it was whenever it returns
    an error. *)
Theorem grant_first_rejected_grant_aborts (db : DB) (cr : Grant)
    (role keyspace : string) (h : Trace) :
  let D :=
    map (fun p => Go.ReplaceAll p "_" " ")
      (Grant_Privileges (Grant_ForProvider cr)) in
  Grant_Role (Grant_ForProvider cr) = Some role ->
  Grant_Keyspace (Grant_ForProvider cr) = Some keyspace ->
  (forall (pre rest : list string) (p : string) (e : error),
     D = pre ++ p :: rest ->
     grantsAccepted db keyspace role h pre ->
     db_Exec db (h ++ granted keyspace role pre)
       (grant.grantStatement p keyspace role) = Some e ->
     grant.Create db (AGrant cr) h
       = (Return (answer (AGrant cr) noCreation
                    (Some (Wrap e "cannot create grant"))),
          h ++ granted keyspace role pre ++ granted keyspace role [p])
     /\ grant.Update db (AGrant cr) h
       = (Return (answer (AGrant cr) noUpdate
                    (Some (Wrap e "cannot create grant"))),
          h ++ granted keyspace role pre ++ granted keyspace role [p]))
  /\ (forall (r : Result ExternalCreation) (h' : Trace),
        grant.Create db (AGrant cr) h = (Return r, h') ->
        object r = AGrant cr)
  /\ (forall (r : Result ExternalUpdate) (h' : Trace),
        grant.Update db (AGrant cr) h = (Return r, h') ->
        err r <> None ->
        object r = AGrant cr).
Proof.
  intros D Hrole Hkeyspace. unfold grant.Create, grant.Update.
  rewrite Hrole, Hkeyspace.
  fold (grant.replaceUnderscoreWithSpace
          (Grant_Privileges (Grant_ForProvider cr))) in D.
  fold D. split; [|split].
  - intros pre rest p e HD Hacc Hfail. run. rewrite HD. split.
    + by rewrite (createEach_stops db keyspace role pre rest p e h Hacc Hfail).
    + by rewrite (grantEach_stops db keyspace role pre rest p e ∅ h Hacc Hfail).
  - intros r h'. run. by intros [= <- _].
  - intros r h'. run.
    destruct (grant.grantEach db keyspace role D ∅ h) as [[[e|] m] h1];
      cbn [fst snd]; run.
    { by intros [= <- <-]. }
    destruct (grant.revokeEach db keyspace role _ _ _) as [[e|] h2];
      cbn [fst snd]; run.
    { by intros [= <- <-]. }
    by intros [= <- <-].
Qed.

Lemma grant_first_rejected_grant_aborts_witness :
  grant.Update
    (rejectingDB (grant.grantStatement "MODIFY" "example_keyspace"
                    "example_role") (New "boom") noRows)
    (AGrant (aGrant ["SELECT"; "MODIFY"; "ALTER"] ["DROP"])) []
  = (Return (answer (AGrant (aGrant ["SELECT"; "MODIFY"; "ALTER"] ["DROP"]))
               noUpdate (Some (Wrap (New "boom") "cannot create grant"))),
     granted "example_keyspace" "example_role" ["SELECT"; "MODIFY"]).
Proof.
  refine (proj2 (proj1 (grant_first_rejected_grant_aborts
           (rejectingDB (grant.grantStatement "MODIFY" "example_keyspace"
                           "example_role") (New "boom") noRows)
           (aGrant ["SELECT"; "MODIFY"; "ALTER"] ["DROP"])
           "example_role" "example_keyspace" [] eq_refl eq_refl)
           ["SELECT"] ["ALTER"] "MODIFY" (New "boom") eq_refl _ _)).
  - intros [|k] q Hq; [injection Hq as <-; reflexivity | discriminate Hq].
  - reflexivity.
Defined.

(** ** Grant: Observe *)

Lemma checkDesired_exists_stays (keys : list string)
    (observed : gmap string bool) (u : bool) :
  (grant.checkDesired keys observed u true).2 = true.
Proof.
  induction keys as [|p keys IH]; cbn; [done|].
  by destruct (Go.index observed p).
Qed.

(** The existence flag is decided by the first permission ranged over. *)
Lemma checkDesired_exists (keys : list string) (observed : gmap string bool)
    (u : bool) :
  (grant.checkDesired keys observed u false).2
  = match keys with
    | [] => false
    | p :: _ => Go.index observed p
    end.
Proof.
  destruct keys as [|p keys]; cbn; [done|].
  destruct (Go.index observed p); cbn; [|done].
  apply checkDesired_exists_stays.
Qed.

Lemma checkDesired_upToDate (keys : list string)
    (observed : gmap string bool) (u e : bool) :
  (grant.checkDesired keys observed u e).1
  = forallb (Go.index observed) keys && u.
Proof.
  revert e. induction keys as [|p keys IH]; intros e; cbn; [done|].
  destruct (Go.index observed p); cbn; [apply IH|done].
Qed.

Lemma checkAtProvider_spec (l : list string) (desired : gmap string bool)
    (u : bool) :
  grant.checkAtProvider l desired u = forallb (Go.index desired) l && u.
Proof.
  unfold grant.checkAtProvider. revert u.
  induction l as [|p l IH]; intros u; cbn; [done|].
  rewrite IH. destruct (Go.index desired p); cbn; [done|].
  by rewrite andb_false_r.
Qed.

Lemma forallb_elem_of (f : string -> bool) (l : list string) :
  forallb f l = true <-> forall p, p ∈ l -> f p = true.
Proof.
  rewrite forallb_forall. split; intros Hall p Hp; apply Hall;
    by apply list_elem_of_In.
Qed.

Lemma ranged_keys (mapRange : gmap string bool -> list string)
    (l : list string) (p : string) :
  grant.rangeOrder mapRange ->
  p ∈ mapRange (grant.markAll ∅ l) <-> p ∈ l.
Proof.
  intros Horder. rewrite (Horder _), list_elem_of_fmap. split.
  - intros ([k v] & -> & Hkv%elem_of_map_to_list). cbn.
    rewrite markAll_lookup, lookup_empty in Hkv.
    by destruct (decide (k ∈ l)).
  - intros Hp. exists (p, true). split; [done|].
    apply elem_of_map_to_list. rewrite markAll_lookup.
    by rewrite decide_True.
Qed.

(** What Observe of a Grant returns when the query succeeds. *)
Lemma grant_Observe_run (mapRange : gmap string bool -> list string)
    (db : DB) (cr : Grant) (role keyspace : string) (h : Trace)
    (iter : Iter) :
  let D := grant.replaceUnderscoreWithSpace
             (Grant_Privileges (Grant_ForProvider cr)) in
  let S := AtProvider_Privileges (Grant_AtProvider cr) in
  let observed := foldl grant.markAll ∅ (scanStringLists iter) in
  let desired := grant.markAll ∅ D in
  let upToDate :=
    forallb (Go.index desired) S
    && (forallb (Go.index observed) (mapRange desired) && true) in
  let resourceExists :=
    match mapRange desired with
    | [] => false
    | p :: _ => Go.index observed p
    end in
  Grant_Role (Grant_ForProvider cr) = Some role ->
  Grant_Keyspace (Grant_ForProvider cr) = Some keyspace ->
  db_Query db h (grant.observeQuery keyspace) [role] = (iter, None) ->
  grant.Observe mapRange db (AGrant cr) h
  = (Return
       (answer
          (AGrant
             (let cr := if upToDate then grant.setPrivileges cr D else cr in
              if resourceExists then grant.setAvailable cr else cr))
          {| ResourceExists := resourceExists;
             ResourceUpToDate := upToDate;
             ResourceLateInitialized := false |} None),
     h ++ [CQuery (grant.observeQuery keyspace) [role]]).
Proof.
  intros D S observed desired upToDate resourceExists Hrole Hkeyspace Hquery.
  unfold grant.Observe. rewrite Hrole, Hkeyspace. run. rewrite Hquery.
  cbn [fst snd]. fold D S observed desired.
  destruct (grant.checkDesired (mapRange desired) observed true false)
    as [u e] eqn:Hloop.
  pose proof (checkDesired_upToDate (mapRange desired) observed true false)
    as Hu.
  pose proof (checkDesired_exists (mapRange desired) observed true) as He.
  rewrite Hloop in Hu, He. cbn in Hu, He. subst u e.
  by rewrite checkAtProvider_spec.
Qed.

(** C3: when the permission query of a Grant succeeds, Observe reports
    upToDate = true exactly when every normalized desired privilege is among
    the observed permissions and every status privilege is among the
    normalized desired ones, in whatever order the map is ranged over; and
    when upToDate is true the status privileges are the normalized desired
    list afterwards. *)
Theorem grant_Observe_upToDate (mapRange : gmap string bool -> list string)
    (db : DB) (cr : Grant) (role keyspace : string) (h : Trace)
    (iter : Iter) :
  let D :=
    map (fun p => Go.ReplaceAll p "_" " ")
      (Grant_Privileges (Grant_ForProvider cr)) in
  let S := AtProvider_Privileges (Grant_AtProvider cr) in
  let observed := concat (scanStringLists iter) in
  grant.rangeOrder mapRange ->
  Grant_Role (Grant_ForProvider cr) = Some role ->
  Grant_Keyspace (Grant_ForProvider cr) = Some keyspace ->
  db_Query db h (grant.observeQuery keyspace) [role] = (iter, None) ->
  exists (r : Result ExternalObservation) (cr' : Grant),
    (grant.Observe mapRange db (AGrant cr) h).1 = Return r
    /\ err r = None
    /\ object r = AGrant cr'
    /\ (ResourceUpToDate (result r) = true
        <-> (forall p, p ∈ D -> p ∈ observed)
            /\ (forall p, p ∈ S -> p ∈ D))
    /\ (ResourceUpToDate (result r) = true ->
        AtProvider_Privileges (Grant_AtProvider cr') = D).
Proof.
  intros D S observed Horder Hrole Hkeyspace Hquery.
  rewrite (grant_Observe_run mapRange db cr role keyspace h iter
             Hrole Hkeyspace Hquery).
  fold (grant.replaceUnderscoreWithSpace
          (Grant_Privileges (Grant_ForProvider cr))) in D.
  fold D S. cbn [fst].
  eexists _, _. split; [reflexivity|]. split; [reflexivity|].
  split; [reflexivity|]. cbn [result ResourceUpToDate answer].
  rewrite andb_true_r. split.
  - rewrite andb_true_iff, !forallb_elem_of. split.
    + intros [HS HD]. split.
      * intros p Hp. specialize (HD p (proj2 (ranged_keys _ _ _ Horder) Hp)).
        rewrite index_observed in HD. by apply bool_decide_eq_true_1 in HD.
      * intros p Hp. specialize (HS p Hp). rewrite index_markAll in HS.
        by apply bool_decide_eq_true_1 in HS.
    + intros [HD HS]. split.
      * intros p Hp. rewrite index_markAll. apply bool_decide_eq_true_2.
        by apply HS.
      * intros p Hp. apply (proj1 (ranged_keys mapRange D p Horder)) in Hp.
        rewrite index_observed.
        apply bool_decide_eq_true_2. by apply HD.
  - intros ->. by destruct (match mapRange _ with [] => _ | _ => _ end).
Qed.

Lemma grant_Observe_upToDate_witness :
  (grant.Observe rangeForward
     (mockDB (permissionRows [["MODIFY"]; ["SELECT"; "ALTER"]]))
     (AGrant (aGrant ["SELECT"; "MODIFY"] ["MODIFY"])) []).1
  = Return (answer
              (AGrant {| Grant_Annotations := named "example_grant";
                         Grant_ForProvider :=
                           Grant_ForProvider
                             (aGrant ["SELECT"; "MODIFY"] ["MODIFY"]);
                         Grant_AtProvider :=
                           {| AtProvider_Privileges := ["SELECT"; "MODIFY"] |};
                         Grant_Conditions := [xpv1.Available] |})
              {| ResourceExists := true;
                 ResourceUpToDate := true;
                 ResourceLateInitialized := false |} None).
Proof.
  destruct (grant_Observe_upToDate rangeForward
              (mockDB (permissionRows [["MODIFY"]; ["SELECT"; "ALTER"]]))
              (aGrant ["SELECT"; "MODIFY"] ["MODIFY"])
              "example_role" "example_keyspace" []
              (permissionRows [["MODIFY"]; ["SELECT"; "ALTER"]])
              (fun m => reflexivity _) eq_refl eq_refl eq_refl)
    as (r & cr' & Hrun & _).
  rewrite Hrun. f_equal. vm_compute in Hrun. by injection Hrun as <-.
Defined.

(** C10: Observe of a Grant whose role and keyspace are set returns with
    lateInitialized = false, whatever the database answers; the annotations
    and the desired parameters of the object are as they were, and so are
    the status privileges unless upToDate is true, in which case they are
    the normalized desired list. *)
Theorem grant_Observe_frame (mapRange : gmap string bool -> list string)
    (db : DB) (cr : Grant) (role keyspace : string) (h : Trace) :
  let D :=
    map (fun p => Go.ReplaceAll p "_" " ")
      (Grant_Privileges (Grant_ForProvider cr)) in
  Grant_Role (Grant_ForProvider cr) = Some role ->
  Grant_Keyspace (Grant_ForProvider cr) = Some keyspace ->
  exists (r : Result ExternalObservation) (cr' : Grant),
    (grant.Observe mapRange db (AGrant cr) h).1 = Return r
    /\ object r = AGrant cr'
    /\ ResourceLateInitialized (result r) = false
    /\ Grant_Annotations cr' = Grant_Annotations cr
    /\ Grant_ForProvider cr' = Grant_ForProvider cr
    /\ (ResourceUpToDate (result r) = false ->
        Grant_AtProvider cr' = Grant_AtProvider cr)
    /\ (ResourceUpToDate (result r) = true ->
        Grant_AtProvider cr' = {| AtProvider_Privileges := D |}).
Proof.
  intros D Hrole Hkeyspace.
  destruct (db_Query db h (grant.observeQuery keyspace) [role])
    as [iter [e|]] eqn:Hquery.
  - unfold grant.Observe. rewrite Hrole, Hkeyspace. run. rewrite Hquery.
    cbn. by eexists _, cr.
  - rewrite (grant_Observe_run mapRange db cr role keyspace h iter
               Hrole Hkeyspace Hquery).
    fold (grant.replaceUnderscoreWithSpace
            (Grant_Privileges (Grant_ForProvider cr))) in D.
    fold D. cbn [fst].
    eexists _, _. split; [reflexivity|]. split; [reflexivity|].
    cbn [result ResourceUpToDate ResourceLateInitialized answer].
    destruct (forallb _ _ && _);
      by destruct (match mapRange _ with [] => _ | _ => _ end).
Qed.

Lemma grant_Observe_frame_witness :
  (grant.Observe rangeForward (mockDB (permissionRows [["ALTER"]]))
     (AGrant (aGrant ["SELECT"] ["MODIFY"])) []).1
  = Return (answer (AGrant (aGrant ["SELECT"] ["MODIFY"]))
              {| ResourceExists := false;
                 ResourceUpToDate := false;
                 ResourceLateInitialized := false |} None).
Proof.
  destruct (grant_Observe_frame rangeForward
              (mockDB (permissionRows [["ALTER"]]))
              (aGrant ["SELECT"] ["MODIFY"])
              "example_role" "example_keyspace" [] eq_refl eq_refl)
    as (r & cr' & Hrun & _).
  rewrite Hrun. f_equal. vm_compute in Hrun. by injection Hrun as <-.
Defined.

(** ** Grant: the existence flag *)

Lemma rangeForward_order : grant.rangeOrder rangeForward.
Proof. by intros m. Qed.

Lemma rangeBackward_order : grant.rangeOrder rangeBackward.
Proof. intros m. apply reverse_Permutation. Qed.

(** When the permission query succeeds, Observe of a Grant reports
    exists = true exactly when the desired permission that the range over
    the map visits first is an observed one. *)
Lemma grant_Observe_exists_first_ranged
    (mapRange : gmap string bool -> list string) (db : DB) (cr : Grant)
    (role keyspace : string) (h : Trace) (iter : Iter) :
  let D := grant.replaceUnderscoreWithSpace
             (Grant_Privileges (Grant_ForProvider cr)) in
  Grant_Role (Grant_ForProvider cr) = Some role ->
  Grant_Keyspace (Grant_ForProvider cr) = Some keyspace ->
  db_Query db h (grant.observeQuery keyspace) [role] = (iter, None) ->
  exists r : Result ExternalObservation,
    (grant.Observe mapRange db (AGrant cr) h).1 = Return r
    /\ (ResourceExists (result r) = true
        <-> exists p, head (mapRange (grant.markAll ∅ D)) = Some p
                      /\ p ∈ concat (scanStringLists iter)).
Proof.
  intros D Hrole Hkeyspace Hquery.
  rewrite (grant_Observe_run mapRange db cr role keyspace h iter
             Hrole Hkeyspace Hquery).
  fold D. cbn [fst]. eexists. split; [reflexivity|].
  cbn [result ResourceExists answer].
  destruct (mapRange (grant.markAll ∅ D)) as [|p keys]; cbn.
  - split; [done|]. by intros (p & [=] & _).
  - rewrite index_observed. split.
    + intros Hp%bool_decide_eq_true_1. by exists p.
    + intros (q & [= <-] & Hq). by apply bool_decide_eq_true_2.
Qed.

(** The existence flag is false for an empty desired list and true for a
    non-empty desired list that is observed in full; it is true only if some
    desired privilege is observed. *)
Lemma grant_Observe_exists_bounds
    (mapRange : gmap string bool -> list string) (db : DB) (cr : Grant)
    (role keyspace : string) (h : Trace) (iter : Iter) :
  let D := grant.replaceUnderscoreWithSpace
             (Grant_Privileges (Grant_ForProvider cr)) in
  let observed := concat (scanStringLists iter) in
  grant.rangeOrder mapRange ->
  Grant_Role (Grant_ForProvider cr) = Some role ->
  Grant_Keyspace (Grant_ForProvider cr) = Some keyspace ->
  db_Query db h (grant.observeQuery keyspace) [role] = (iter, None) ->
  exists r : Result ExternalObservation,
    (grant.Observe mapRange db (AGrant cr) h).1 = Return r
    /\ (ResourceExists (result r) = true ->
        exists p, p ∈ D /\ p ∈ observed)
    /\ (D = [] -> ResourceExists (result r) = false)
    /\ (D <> [] -> (forall p, p ∈ D -> p ∈ observed) ->
        ResourceExists (result r) = true).
Proof.
  intros D observed Horder Hrole Hkeyspace Hquery.
  destruct (grant_Observe_exists_first_ranged mapRange db cr role keyspace
              h iter Hrole Hkeyspace Hquery) as (r & Hrun & Hexists).
  fold D in Hexists. exists r. split; [done|]. clearbody D. subst observed.
  assert (Hhead : forall p, head (mapRange (grant.markAll ∅ D)) = Some p ->
                            p ∈ D).
  { intros p Hp. apply (ranged_keys mapRange D p Horder).
    destruct (mapRange _) as [|q keys]; [done|].
    injection Hp as ->. by left. }
  split; [|split].
  - intros (p & Hp & Hobs)%Hexists. exists p. split; [by apply Hhead|done].
  - intros HD. apply not_true_is_false.
    intros (p & Hp%Hhead & _)%Hexists. rewrite HD in Hp.
    by apply not_elem_of_nil in Hp.
  - intros HD Hall. apply Hexists.
    destruct (mapRange (grant.markAll ∅ D)) as [|p keys] eqn:Hkeys.
    + destruct D as [|q D']; [done|].
      assert (Hq : q ∈ mapRange (grant.markAll ∅ (q :: D')))
        by (apply (ranged_keys mapRange (q :: D') q Horder); by left).
      rewrite Hkeys in Hq. by apply not_elem_of_nil in Hq.
    + exists p. split; [done|]. by apply Hall, Hhead.
Qed.

(** C2, at an input where the code departs from it: the desired privileges
    are SELECT and MODIFY and only MODIFY is observed, so a desired privilege
    is found among the observed permissions; ranging over the desired map
    with SELECT first Observe reports exists = false, in the reverse order
    it reports exists = true.  Both orders visit each key of the map once. *)
Theorem grant_Observe_exists_depends_on_range_order :
  let db := mockDB (permissionRows [["MODIFY"]]) in
  let cr := aGrant ["SELECT"; "MODIFY"] [] in
  grant.rangeOrder rangeForward
  /\ grant.rangeOrder rangeBackward
  /\ "MODIFY"%string
       ∈ grant.replaceUnderscoreWithSpace
           (Grant_Privileges (Grant_ForProvider cr))
  /\ "MODIFY"%string ∈ concat [["MODIFY"%string]]
  /\ rangeForward (grant.markAll ∅ ["SELECT"; "MODIFY"])
     = ["SELECT"; "MODIFY"]
  /\ (grant.Observe rangeForward db (AGrant cr) []).1
     = Return (answer (AGrant cr)
                 {| ResourceExists := false;
                    ResourceUpToDate := false;
                    ResourceLateInitialized := false |} None)
  /\ (grant.Observe rangeBackward db (AGrant cr) []).1
     = Return (answer (AGrant (grant.setAvailable cr))
                 {| ResourceExists := true;
                    ResourceUpToDate := false;
                    ResourceLateInitialized := false |} None).
Proof.
  split; [apply rangeForward_order|]. split; [apply rangeBackward_order|].
  split; [by right; left|]. split; [by left|].
  repeat split; vm_compute; reflexivity.
Qed.

(** * Further properties of the reconcilers *)

(** ** The Go library fragments *)

From Stdlib Require Import DecimalPos.









Lemma cutPrefix_app (prefix s : string) :
  Go.cutPrefix (prefix +:+ s) prefix = Some s.
Proof.
  induction prefix as [|c prefix IH]; [by destruct s|].
  change (String c prefix +:+ s) with (String c (prefix +:+ s)).
  cbn [Go.cutPrefix]. by rewrite Ascii.eqb_refl.
Qed.

(** [strings.TrimPrefix] removes a prefix that is there and nothing else. *)
Lemma TrimPrefix_app (prefix s : string) :
  Go.TrimPrefix (prefix +:+ s) prefix = s.
Proof. unfold Go.TrimPrefix. by rewrite cutPrefix_app. Qed.

Lemma TrimPrefix_absent (prefix s : string) :
  Go.cutPrefix s prefix = None -> Go.TrimPrefix s prefix = s.
Proof. unfold Go.TrimPrefix. by intros ->. Qed.

(** ** Keyspace: Observe *)

(** What Observe of a Keyspace returns when both queries and both scans
    succeed. *)
Lemma keyspace_Observe_run (db : DB) (cr : Keyspace) (h : Trace)
    (existsIter detailsIter : Iter) (keyspaceName : string)
    (replicationMap : gmap string string) (durableWrites : option bool) :
  let name := meta.GetExternalName (Keyspace_Annotations cr) in
  let observed := keyspace.observedParameters replicationMap durableWrites in
  let filled := keyspace.lateInit observed (Keyspace_ForProvider cr) in
  db_Query db h keyspace.existsQuery [name] = (existsIter, None) ->
  scanString existsIter = Some keyspaceName ->
  db_Query db (h ++ [CQuery keyspace.existsQuery [name]])
    keyspace.detailsQuery [name] = (detailsIter, None) ->
  scanMapAndBoolPtr detailsIter = Some (replicationMap, durableWrites) ->
  keyspace.Observe db (AKeyspace cr) h
  = (answer
       (AKeyspace {| Keyspace_Annotations := Keyspace_Annotations cr;
                     Keyspace_ForProvider := filled.2;
                     Keyspace_ObservableField := Keyspace_ObservableField cr;
                     Keyspace_Conditions :=
                       xpv1.SetConditions (Keyspace_Conditions cr)
                         xpv1.Available |})
       {| ResourceExists := true;
          ResourceUpToDate := keyspace.upToDate observed filled.2;
          ResourceLateInitialized := filled.1 |} None,
     h ++ [CQuery keyspace.existsQuery [name];
           CQuery keyspace.detailsQuery [name]]).
Proof.
  intros name observed filled Hq1 Hs1 Hq2 Hs2.
  unfold keyspace.Observe. run. fold name. rewrite Hq1. cbn [fst snd].
  rewrite Hs1. run. rewrite Hq2. cbn [fst snd]. rewrite Hs2.
  fold observed. cbn [keyspace.setAvailable Keyspace_ForProvider].
  fold filled. destruct filled as [li desired]. run.
  by rewrite <- app_assoc.
Qed.

(** X1: Observe of a Keyspace never changes the annotations or the
    observable field.  When it reports exists = false, with or without an
    error, the whole object is as it was and upToDate and lateInitialized are
    false; when it reports exists = true the error is nil and the conditions
    are the old ones with Available set.  An error comes with the zero
    observation and is one of three: the existence query's error wrapped as
    "failed to check keyspace existence", the details query's error wrapped
    as "cannot select keyspace", or "failed to scan keyspace attributes". *)
Theorem keyspace_Observe_frame (db : DB) (cr : Keyspace) (h : Trace) :
  let r := (keyspace.Observe db (AKeyspace cr) h).1 in
  exists cr' : Keyspace,
    object r = AKeyspace cr'
    /\ Keyspace_Annotations cr' = Keyspace_Annotations cr
    /\ Keyspace_ObservableField cr' = Keyspace_ObservableField cr
    /\ (ResourceExists (result r) = true ->
        err r = None
        /\ Keyspace_Conditions cr'
           = xpv1.SetConditions (Keyspace_Conditions cr) xpv1.Available)
    /\ (ResourceExists (result r) = false ->
        cr' = cr
        /\ ResourceUpToDate (result r) = false
        /\ ResourceLateInitialized (result r) = false)
    /\ (err r <> None ->
        result r = noObservation
        /\ ((exists e,
               err r = Some (Wrap e "failed to check keyspace existence")
               \/ err r = Some (Wrap e "cannot select keyspace"))
            \/ err r = Some (New "failed to scan keyspace attributes"))).
Proof.
  intros r. subst r.
  set (name := meta.GetExternalName (Keyspace_Annotations cr)).
  destruct (db_Query db h keyspace.existsQuery [name])
    as [existsIter [e|]] eqn:Hq1.
  { unfold keyspace.Observe. run. fold name. rewrite Hq1. cbn.
    exists cr. repeat split; try done. left. exists e. by left. }
  destruct (scanString existsIter) as [keyspaceName|] eqn:Hs1.
  2:{ unfold keyspace.Observe. run. fold name. rewrite Hq1. cbn.
      rewrite Hs1. cbn. exists cr. by repeat split. }
  destruct (db_Query db (h ++ [CQuery keyspace.existsQuery [name]])
              keyspace.detailsQuery [name]) as [detailsIter [e|]] eqn:Hq2.
  { unfold keyspace.Observe. run. fold name. rewrite Hq1. cbn [fst snd].
    rewrite Hs1. run. rewrite Hq2. cbn.
    exists cr. repeat split; try done. left. exists e. by right. }
  destruct (scanMapAndBoolPtr detailsIter) as [[m dw]|] eqn:Hs2.
  2:{ unfold keyspace.Observe. run. fold name. rewrite Hq1. cbn [fst snd].
      rewrite Hs1. run. rewrite Hq2. cbn [fst snd]. rewrite Hs2. cbn.
      exists cr. repeat split; try done. by right. }
  rewrite (keyspace_Observe_run db cr h existsIter detailsIter keyspaceName
             m dw Hq1 Hs1 Hq2 Hs2).
  cbn. eexists. by repeat split.
Qed.

Lemma keyspace_Observe_frame_witness :
  object (keyspace.Observe (mockDB noRows)
            (AKeyspace (aKeyspace "ks" {| ReplicationClass := None;
                                          ReplicationFactor := None;
                                          DurableWrites := None |})) []).1
  = AKeyspace (aKeyspace "ks" {| ReplicationClass := None;
                                 ReplicationFactor := None;
                                 DurableWrites := None |}).
Proof.
  destruct (keyspace_Observe_frame (mockDB noRows)
              (aKeyspace "ks" {| ReplicationClass := None;
                                 ReplicationFactor := None;
                                 DurableWrites := None |}) [])
    as (cr' & Hobject & _ & _ & _ & Habsent & _).
  rewrite Hobject. f_equal. by apply Habsent.
Defined.

(** ** Keyspace: Create, Update and Delete *)

(** Chooses, for the statement left open in the goal, the one that the
    operation sends. *)
Ltac pick_statement db h :=
  match goal with
  | |- context [db_Exec db h ?q] =>
      assert_fails (is_evar q); instantiate (1 := q)
  end.

(** X2: Create, Update and Delete of a Keyspace each send exactly one
    statement, whatever the database answers, return the zero result and
    leave the object as it was; Delete sends DROP KEYSPACE IF EXISTS with the
    quoted identity.  A rejection [e] comes back as a fresh error without a
    cause, whose message is the operation's label, a colon and the message
    of [e]: the text [errors.Wrap] would print. *)
Theorem keyspace_writes_one_statement (db : DB) (cr : Keyspace) (h : Trace) :
  let id := meta.GetExternalName (Keyspace_Annotations cr) in
  let failure (label : string) (answer : option error) : option error :=
    match answer with
    | Some e => Some (New (label +:+ ": " +:+ Error e))
    | None => None
    end in
  (exists s,
     keyspace.Create db (AKeyspace cr) h
     = (answer (AKeyspace cr) noCreation
          (failure "cannot create keyspace" (db_Exec db h s)),
        h ++ [CExec s]))
  /\ (exists s,
     keyspace.Update db (AKeyspace cr) h
     = (answer (AKeyspace cr) noUpdate
          (failure "cannot update keyspace" (db_Exec db h s)),
        h ++ [CExec s]))
  /\ (let s := "DROP KEYSPACE IF EXISTS " +:+ QuoteIdentifier id in
      keyspace.Delete db (AKeyspace cr) h
      = (answer (AKeyspace cr) tt
           (failure "cannot drop keyspace" (db_Exec db h s)),
         h ++ [CExec s]))
  /\ (forall (label : string) (e : error),
        failure label (Some e) = Some (New (Error (Wrap e label)))).
Proof.
  intros id failure. subst failure. cbn beta.
  split; [|split; [|split]].
  - eexists. unfold keyspace.Create. run. pick_statement db h.
    destruct (db_Exec db h _); reflexivity.
  - eexists. unfold keyspace.Update. run. pick_statement db h.
    destruct (db_Exec db h _); reflexivity.
  - unfold keyspace.Delete. run. fold id.
    destruct (db_Exec db h _); reflexivity.
  - done.
Qed.

(** ** Keyspace: what Observe reads *)

Lemma keyspace_Observe_answers (db : DB) (cr : Keyspace) (h : Trace)
    (m : gmap string string) (dw : option bool) :
  let observed := keyspace.observedParameters m dw in
  let filled := keyspace.lateInit observed (Keyspace_ForProvider cr) in
  keyspaceAnswers db h (meta.GetExternalName (Keyspace_Annotations cr)) m dw ->
  (keyspace.Observe db (AKeyspace cr) h).1
  = answer
      (AKeyspace {| Keyspace_Annotations := Keyspace_Annotations cr;
                    Keyspace_ForProvider := filled.2;
                    Keyspace_ObservableField := Keyspace_ObservableField cr;
                    Keyspace_Conditions :=
                      xpv1.SetConditions (Keyspace_Conditions cr)
                        xpv1.Available |})
      {| ResourceExists := true;
         ResourceUpToDate := keyspace.upToDate observed filled.2;
         ResourceLateInitialized := filled.1 |} None.
Proof.
  intros observed filled (it1 & it2 & n & Hq1 & Hs1 & Hq2 & Hs2).
  by rewrite (keyspace_Observe_run db cr h it1 it2 n m dw Hq1 Hs1 Hq2 Hs2).
Qed.

Lemma mockDB_keyspaceAnswers (h : Trace) (name : string)
    (m : gmap string string) (dw : option bool) :
  keyspaceAnswers (mockDB (keyspaceRowOf m dw)) h name m dw.
Proof. by eexists _, _, _. Qed.

(** X3: Observe of a Keyspace treats a replication class reported with the
    prefix org.apache.cassandra.locator. as the class without it: it returns
    the same object, observation and error for both reports. *)
Theorem keyspace_Observe_ignores_locator_prefix (db1 db2 : DB)
    (cr : Keyspace) (h1 h2 : Trace) (m : gmap string string)
    (dw : option bool) (class : string) :
  let name := meta.GetExternalName (Keyspace_Annotations cr) in
  Go.cutPrefix class locatorPrefix = None ->
  keyspaceAnswers db1 h1 name
    (<["class"%string := locatorPrefix +:+ class]> m) dw ->
  keyspaceAnswers db2 h2 name (<["class"%string := class]> m) dw ->
  (keyspace.Observe db1 (AKeyspace cr) h1).1
  = (keyspace.Observe db2 (AKeyspace cr) h2).1.
Proof.
  intros name Hclass H1 H2.
  rewrite (keyspace_Observe_answers db1 cr h1 _ dw H1),
    (keyspace_Observe_answers db2 cr h2 _ dw H2).
  unfold keyspace.observedParameters.
  rewrite !lookup_insert_eq, !lookup_insert_ne by done.
  fold locatorPrefix. by rewrite TrimPrefix_app, (TrimPrefix_absent _ _ Hclass).
Qed.

Lemma keyspace_Observe_ignores_locator_prefix_witness :
  (keyspace.Observe
     (mockDB (keyspaceRowOf
                (<["class"%string :=
                     "org.apache.cassandra.locator.SimpleStrategy"%string]>
                   (<["replication_factor"%string := "2"%string]> ∅))
                (Some true)))
     (AKeyspace (aKeyspace "example_keyspace"
                   {| ReplicationClass := Some "SimpleStrategy"%string;
                      ReplicationFactor := Some 2;
                      DurableWrites := Some true |})) []).1
  = (keyspace.Observe
       (mockDB (keyspaceRow "SimpleStrategy" "2" (Some true)))
       (AKeyspace (aKeyspace "example_keyspace"
                     {| ReplicationClass := Some "SimpleStrategy"%string;
                        ReplicationFactor := Some 2;
                        DurableWrites := Some true |})) []).1.
Proof.
  apply (keyspace_Observe_ignores_locator_prefix _ _ _ [] []
           (<["replication_factor"%string := "2"%string]> ∅) (Some true)
           "SimpleStrategy" eq_refl).
  - apply mockDB_keyspaceAnswers.
  - apply mockDB_keyspaceAnswers.
Defined.

(** X4: when the replication map of an existing Keyspace has no
    replication_factor entry, Observe takes the observed factor to be 0: an
    unset desired factor is filled with 0, and a desired factor other than 0
    is reported as not up to date.  Likewise a map without a class entry
    gives the empty class. *)
Theorem keyspace_Observe_missing_entries (db : DB) (cr : Keyspace)
    (h : Trace) (m : gmap string string) (dw : option bool) :
  let desired := Keyspace_ForProvider cr in
  keyspaceAnswers db h (meta.GetExternalName (Keyspace_Annotations cr)) m dw ->
  exists (cr' : Keyspace) (upToDate lateInitialized : bool),
    (keyspace.Observe db (AKeyspace cr) h).1
    = answer (AKeyspace cr')
        {| ResourceExists := true;
           ResourceUpToDate := upToDate;
           ResourceLateInitialized := lateInitialized |} None
    /\ (m !! "replication_factor"%string = None ->
        (ReplicationFactor desired = None ->
         ReplicationFactor (Keyspace_ForProvider cr') = Some 0)
        /\ (forall f, ReplicationFactor desired = Some f -> f <> 0 ->
            upToDate = false))
    /\ (m !! "class"%string = None ->
        (ReplicationClass desired = None ->
         ReplicationClass (Keyspace_ForProvider cr') = Some EmptyString)
        /\ (forall c, ReplicationClass desired = Some c -> c <> EmptyString ->
            upToDate = false)).
Proof.
  intros desired Hanswers.
  rewrite (keyspace_Observe_answers db cr h m dw Hanswers).
  rewrite keyspace_lateInit_spec. cbn [fst snd]. fold desired.
  eexists _, _, _. split; [reflexivity|].
  unfold keyspace.upToDate, keyspace.differ, keyspace.observedParameters.
  cbn [ReplicationClass ReplicationFactor DurableWrites].
  split; intros ->; (split; [by intros ->|]).
  - intros f -> Hf. destruct (ReplicationClass desired) as [c|].
    + destruct (negb _); [done|]. by destruct (Z.eqb_spec 0 f).
    + destruct (negb _); [done|]. by destruct (Z.eqb_spec 0 f).
  - intros c -> Hc. by destruct (String.eqb_spec EmptyString c).
Qed.

Lemma keyspace_Observe_missing_entries_witness :
  result (keyspace.Observe
            (mockDB (keyspaceRowOf
                       {["class"%string := "NetworkTopologyStrategy"%string]}
                       (Some true)))
            (AKeyspace (aKeyspace "example_keyspace"
                          {| ReplicationClass :=
                               Some "NetworkTopologyStrategy"%string;
                             ReplicationFactor := Some 3;
                             DurableWrites := Some true |})) []).1
  = {| ResourceExists := true;
       ResourceUpToDate := false;
       ResourceLateInitialized := false |}.
Proof.
  destruct (keyspace_Observe_missing_entries
              (mockDB (keyspaceRowOf
                         {["class"%string := "NetworkTopologyStrategy"%string]}
                         (Some true)))
              (aKeyspace "example_keyspace"
                 {| ReplicationClass := Some "NetworkTopologyStrategy"%string;
                    ReplicationFactor := Some 3;
                    DurableWrites := Some true |})
              [] _ _ (mockDB_keyspaceAnswers _ _ _ _))
    as (cr' & u & l & Hrun & Hfactor & _).
  rewrite Hrun. cbn [result answer].
  rewrite (proj2 (Hfactor eq_refl) 3 eq_refl) by done.
  f_equal. vm_compute in Hrun. by injection Hrun as _ _ <-.
Defined.

(** ** Keyspace: Create, then Observe *)



(** ** Keyspace: Observe twice *)

Lemma SetConditions_twice (s : list xpv1.Condition) (c : xpv1.Condition) :
  xpv1.SetConditions (xpv1.SetConditions s c) c = xpv1.SetConditions s c.
Proof.
  assert (Hsame : xpv1.sameType c c = true) by apply String.eqb_refl.
  assert (Hmap : forall l,
            map (fun e => if xpv1.sameType c e then c else e)
              (map (fun e => if xpv1.sameType c e then c else e) l)
            = map (fun e => if xpv1.sameType c e then c else e) l).
  { intros l. rewrite map_map. apply map_ext. intros e.
    destruct (xpv1.sameType c e) eqn:He; by rewrite ?Hsame, ?He. }
  assert (Hexists : forall l,
            existsb (xpv1.sameType c) l = true ->
            existsb (xpv1.sameType c)
              (map (fun e => if xpv1.sameType c e then c else e) l) = true).
  { intros l. induction l as [|e l IH]; cbn; [done|].
    destruct (xpv1.sameType c e) eqn:He; cbn; [by rewrite Hsame|].
    by rewrite He. }
  unfold xpv1.SetConditions.
  destruct (existsb (xpv1.sameType c) s) eqn:Hs.
  - by rewrite Hexists, Hmap.
  - rewrite existsb_app. cbn. rewrite Hsame, orb_true_r.
    rewrite map_app. cbn. rewrite Hsame. f_equal.
    clear -Hs. induction s as [|e s IH]; cbn in *; [done|].
    apply orb_false_elim in Hs as [He Hs]. by rewrite He, IH.
Qed.

(** X6: Observe of a Keyspace settles in one call.  When the database gives
    the same report again (with a scanned durable-writes flag), a second
    Observe on the object the first one left returns that object unchanged,
    the same upToDate verdict and lateInitialized = false. *)
Theorem keyspace_Observe_twice (db : DB) (cr cr1 : Keyspace) (h h' : Trace)
    (m : gmap string string) (durable : bool) :
  let name := meta.GetExternalName (Keyspace_Annotations cr) in
  let first := (keyspace.Observe db (AKeyspace cr) h).1 in
  keyspaceAnswers db h name m (Some durable) ->
  keyspaceAnswers db h' name m (Some durable) ->
  object first = AKeyspace cr1 ->
  (keyspace.Observe db (AKeyspace cr1) h').1
  = answer (AKeyspace cr1)
      {| ResourceExists := true;
         ResourceUpToDate := ResourceUpToDate (result first);
         ResourceLateInitialized := false |} None.
Proof.
  intros name first Hfirst Hsecond Hobject. subst first.
  rewrite (keyspace_Observe_answers db cr h m _ Hfirst) in Hobject |- *.
  injection Hobject as <-.
  match goal with
  | |- (keyspace.Observe db (AKeyspace ?c) h').1 = _ =>
      rewrite (keyspace_Observe_answers db c h' m (Some durable) Hsecond)
  end.
  cbn [Keyspace_Annotations Keyspace_ForProvider Keyspace_ObservableField
       Keyspace_Conditions result ResourceUpToDate answer].
  rewrite SetConditions_twice, !keyspace_lateInit_spec.
  unfold keyspace.observedParameters.
  cbn [fst snd ReplicationClass ReplicationFactor DurableWrites].
  by destruct (ReplicationClass _), (ReplicationFactor _), (DurableWrites _).
Qed.

Lemma keyspace_Observe_twice_witness :
  (keyspace.Observe (mockDB (keyspaceRow "SimpleStrategy" "2" (Some true)))
     (AKeyspace {| Keyspace_Annotations := named "example_keyspace";
                   Keyspace_ForProvider :=
                     {| ReplicationClass := Some "SimpleStrategy"%string;
                        ReplicationFactor := Some 2;
                        DurableWrites := Some true |};
                   Keyspace_ObservableField := EmptyString;
                   Keyspace_Conditions := [xpv1.Available] |}) []).1
  = answer
      (AKeyspace {| Keyspace_Annotations := named "example_keyspace";
                    Keyspace_ForProvider :=
                      {| ReplicationClass := Some "SimpleStrategy"%string;
                         ReplicationFactor := Some 2;
                         DurableWrites := Some true |};
                    Keyspace_ObservableField := EmptyString;
                    Keyspace_Conditions := [xpv1.Available] |})
      {| ResourceExists := true;
         ResourceUpToDate := true;
         ResourceLateInitialized := false |} None.
Proof.
  apply (keyspace_Observe_twice
           (mockDB (keyspaceRow "SimpleStrategy" "2" (Some true)))
           (aKeyspace "example_keyspace"
              {| ReplicationClass := None;
                 ReplicationFactor := Some 2;
                 DurableWrites := None |})
           _ [] [] _ true
           (mockDB_keyspaceAnswers _ _ _ _) (mockDB_keyspaceAnswers _ _ _ _)
           eq_refl).
Defined.

(** ** Role: Observe *)

Lemma role_Observe_answers (db : DB) (cr : Role) (h : Trace)
    (isSuperuser canLogin : bool) :
  let observed :=
    {| Role_Privileges :=
         {| SuperUser := Some isSuperuser; Login := Some canLogin |} |} in
  let filled := role.lateInit observed (Role_ForProvider cr) in
  roleAnswers db h (meta.GetExternalName (Role_Annotations cr))
    isSuperuser canLogin ->
  (role.Observe db (ARole cr) h).1
  = answer
      (ARole {| Role_Annotations := Role_Annotations cr;
                Role_ForProvider := filled.2;
                Role_Conditions :=
                  xpv1.SetConditions (Role_Conditions cr) xpv1.Available |})
      {| ResourceExists := true;
         ResourceUpToDate := role.upToDate observed filled.2;
         ResourceLateInitialized := filled.1 |} None.
Proof.
  intros observed filled (iter & Hquery & Hscan).
  unfold role.Observe. run. rewrite Hquery. cbn [fst snd]. rewrite Hscan.
  cbn [role.setAvailable Role_ForProvider]. fold observed filled.
  by destruct filled.
Qed.

Lemma mockDB_roleAnswers (h : Trace) (name : string) (su lg : bool) :
  roleAnswers (mockDB (roleRow su lg)) h name su lg.
Proof. by eexists. Qed.

(** X7: Observe of a Role sends exactly one query and never changes the
    annotations.  When it reports exists = false, with or without an error,
    the object is as it was and upToDate and lateInitialized are false; when
    it reports exists = true the error is nil and the conditions are the old
    ones with Available set.  Its only error is the query's error wrapped as
    "cannot select role", with the zero observation. *)
Theorem role_Observe_frame (db : DB) (cr : Role) (h : Trace) :
  let name := meta.GetExternalName (Role_Annotations cr) in
  let r := (role.Observe db (ARole cr) h).1 in
  (role.Observe db (ARole cr) h).2 = h ++ [CQuery role.selectQuery [name]]
  /\ exists cr' : Role,
       object r = ARole cr'
       /\ Role_Annotations cr' = Role_Annotations cr
       /\ (ResourceExists (result r) = true ->
           err r = None
           /\ Role_Conditions cr'
              = xpv1.SetConditions (Role_Conditions cr) xpv1.Available)
       /\ (ResourceExists (result r) = false ->
           cr' = cr
           /\ ResourceUpToDate (result r) = false
           /\ ResourceLateInitialized (result r) = false)
       /\ (err r <> None ->
           result r = noObservation
           /\ exists e, db_Query db h role.selectQuery [name] = (e.1, Some e.2)
                        /\ err r = Some (Wrap e.2 "cannot select role")).
Proof.
  intros name r. subst r. unfold role.Observe. run. fold name.
  destruct (db_Query db h role.selectQuery [name]) as [iter [e|]] eqn:Hquery;
    cbn [fst snd].
  { split; [done|]. exists cr. repeat split; try done. by exists (iter, e). }
  destruct (scanBools iter) as [[su lg]|]; cbn [fst snd].
  2:{ split; [done|]. exists cr. by repeat split. }
  cbn [role.setAvailable Role_ForProvider].
  destruct (role.lateInit _ _) as [li desired]. cbn.
  split; [done|]. eexists. by repeat split.
Qed.

Lemma role_Observe_frame_witness :
  object (role.Observe (mockDB noRows)
            (ARole (aRole "example_role" None (Some true))) []).1
  = ARole (aRole "example_role" None (Some true)).
Proof.
  destruct (role_Observe_frame (mockDB noRows)
              (aRole "example_role" None (Some true)) [])
    as (_ & cr' & Hobject & _ & _ & Habsent & _).
  rewrite Hobject. f_equal. by apply Habsent.
Defined.

(** ** Role: Create, Update and Delete *)

(** X8: Create of a Role.  When password generation fails, that error is
    returned as it is and nothing is sent.  Otherwise exactly one statement
    is sent, CREATE ROLE IF NOT EXISTS with the quoted identity, the two
    flags (an unset flag as false) and the generated password; a rejection
    [e] comes back as "cannot create role: " and the message of [e] with no
    connection details, and on success the connection details are those the
    database port gives for the identity and the generated password.  The
    object is never changed. *)
Theorem role_Create_outcomes (db : DB) (cr : Role) (h : Trace)
    (pw : string) :
  let id := meta.GetExternalName (Role_Annotations cr) in
  let desired := Role_Privileges (Role_ForProvider cr) in
  let s :=
    "CREATE ROLE IF NOT EXISTS " +:+ QuoteIdentifier id
      +:+ " WITH SUPERUSER = "
      +:+ (if bool_decide (SuperUser desired = Some true)
           then "true" else "false")
      +:+ " AND LOGIN = "
      +:+ (if bool_decide (Login desired = Some true)
           then "true" else "false")
      +:+ " AND PASSWORD = '" +:+ pw +:+ "'" in
  (forall e,
     role.Create (pw, Some e) db (ARole cr) h
     = (answer (ARole cr) noCreation (Some e), h))
  /\ role.Create (pw, None) db (ARole cr) h
     = (match db_Exec db h s with
        | Some e =>
            answer (ARole cr) noCreation
              (Some (New ("cannot create role: " +:+ Error e)))
        | None =>
            answer (ARole cr)
              {| CreationConnectionDetails :=
                   db_GetConnectionDetails db id pw |} None
        end,
        h ++ [CExec s]).
Proof.
  intros id desired s. split; [done|].
  unfold role.Create. run. fold id desired.
  assert (Hs : forall p : option bool,
            Go.FormatBool (role.isSet p)
            = if bool_decide (p = Some true) then "true"%string
              else "false"%string) by (by intros [[]|]).
  rewrite !Hs. fold s. by destruct (db_Exec db h s).
Qed.

(** X9: Update and Delete of a Role each send exactly one statement,
    whatever the database answers, return the zero result and leave the
    object as it was.  Update sends ALTER ROLE with the quoted identity and
    the two flags, an unset flag as false; Delete sends DROP ROLE IF EXISTS
    with the quoted identity.  A rejection [e] comes back as the operation's
    label, a colon and the message of [e]. *)
Theorem role_writes_one_statement (db : DB) (cr : Role) (h : Trace) :
  let id := meta.GetExternalName (Role_Annotations cr) in
  let desired := Role_Privileges (Role_ForProvider cr) in
  let failure (label : string) (answer : option error) : option error :=
    match answer with
    | Some e => Some (New (label +:+ ": " +:+ Error e))
    | None => None
    end in
  (let s :=
     "ALTER ROLE " +:+ QuoteIdentifier id
       +:+ " WITH SUPERUSER = "
       +:+ (if bool_decide (SuperUser desired = Some true)
            then "true" else "false")
       +:+ " AND LOGIN = "
       +:+ (if bool_decide (Login desired = Some true)
            then "true" else "false") in
   role.Update db (ARole cr) h
   = (answer (ARole cr) noUpdate
        (failure "cannot update role" (db_Exec db h s)),
      h ++ [CExec s]))
  /\ (let s := "DROP ROLE IF EXISTS " +:+ QuoteIdentifier id in
      role.Delete db (ARole cr) h
      = (answer (ARole cr) tt (failure "cannot drop role" (db_Exec db h s)),
         h ++ [CExec s])).
Proof.
  intros id desired failure. subst failure. cbn beta zeta.
  assert (Hs : forall p : option bool,
            Go.FormatBool (role.isSet p)
            = if bool_decide (p = Some true) then "true"%string
              else "false"%string) by (by intros [[]|]).
  split.
  - unfold role.Update. run. fold id desired. rewrite !Hs.
    by destruct (db_Exec db h _).
  - unfold role.Delete. run. fold id. by destruct (db_Exec db h _).
Qed.

(** ** Role: Observe, then Update or Observe *)

(** X10: Update of a Role sends an unset flag as false, but after an
    Observe that found the role it sends the flag of the observed row in its
    place: the ALTER ROLE statement on the object Observe left carries, for
    each flag, the desired value if it was set and the observed one if not. *)
Theorem role_Observe_then_Update (db : DB) (cr cr1 : Role) (h h' : Trace)
    (isSuperuser canLogin : bool) :
  let id := meta.GetExternalName (Role_Annotations cr) in
  let desired := Role_Privileges (Role_ForProvider cr) in
  roleAnswers db h id isSuperuser canLogin ->
  object (role.Observe db (ARole cr) h).1 = ARole cr1 ->
  (role.Update db (ARole cr1) h').2
  = h' ++ [CExec ("ALTER ROLE " +:+ QuoteIdentifier id
                    +:+ " WITH SUPERUSER = "
                    +:+ (if default isSuperuser (SuperUser desired)
                         then "true" else "false")
                    +:+ " AND LOGIN = "
                    +:+ (if default canLogin (Login desired)
                         then "true" else "false"))].
Proof.
  intros id desired Hanswers Hobject.
  rewrite (role_Observe_answers db cr h _ _ Hanswers) in Hobject.
  injection Hobject as <-. rewrite role_lateInit_spec.
  unfold role.Update. run.
  cbn [fst snd Role_ForProvider Role_Privileges Role_Annotations SuperUser
       Login].
  fold id desired.
  destruct (SuperUser desired) as [[]|], (Login desired) as [[]|],
    isSuperuser, canLogin; by destruct (db_Exec db h' _).
Qed.

Lemma role_Observe_then_Update_witness :
  (role.Update (mockDB (roleRow true true))
     (ARole {| Role_Annotations := named "example_role";
               Role_ForProvider :=
                 {| Role_Privileges :=
                      {| SuperUser := Some true; Login := Some false |} |};
               Role_Conditions := [xpv1.Available] |}) []).2
  = [CExec (quoting ["ALTER ROLE "; "example_role";
                     " WITH SUPERUSER = true AND LOGIN = false"])].
Proof.
  apply (role_Observe_then_Update (mockDB (roleRow true true))
           (aRole "example_role" None (Some false)) _ [] [] true true
           (mockDB_roleAnswers _ _ _ _) eq_refl).
Defined.

(** X11: Observe of a Role settles in one call.  When the database reports
    the same row again, a second Observe on the object the first one left
    returns that object unchanged, the same upToDate verdict and
    lateInitialized = false. *)
Theorem role_Observe_twice (db : DB) (cr cr1 : Role) (h h' : Trace)
    (isSuperuser canLogin : bool) :
  let name := meta.GetExternalName (Role_Annotations cr) in
  let first := (role.Observe db (ARole cr) h).1 in
  roleAnswers db h name isSuperuser canLogin ->
  roleAnswers db h' name isSuperuser canLogin ->
  object first = ARole cr1 ->
  (role.Observe db (ARole cr1) h').1
  = answer (ARole cr1)
      {| ResourceExists := true;
         ResourceUpToDate := ResourceUpToDate (result first);
         ResourceLateInitialized := false |} None.
Proof.
  intros name first Hfirst Hsecond Hobject. subst first.
  rewrite (role_Observe_answers db cr h _ _ Hfirst) in Hobject |- *.
  injection Hobject as <-.
  match goal with
  | |- (role.Observe db (ARole ?c) h').1 = _ =>
      rewrite (role_Observe_answers db c h' _ _ Hsecond)
  end.
  cbn [Role_Annotations Role_ForProvider Role_Conditions result
       ResourceUpToDate answer].
  rewrite SetConditions_twice, !role_lateInit_spec.
  cbn [fst snd Role_Privileges SuperUser Login].
  by destruct (SuperUser _), (Login _).
Qed.

Lemma role_Observe_twice_witness :
  (role.Observe (mockDB (roleRow false true))
     (ARole {| Role_Annotations := named "example_role";
               Role_ForProvider :=
                 {| Role_Privileges :=
                      {| SuperUser := Some true; Login := Some true |} |};
               Role_Conditions := [xpv1.Available] |}) []).1
  = answer
      (ARole {| Role_Annotations := named "example_role";
                Role_ForProvider :=
                  {| Role_Privileges :=
                       {| SuperUser := Some true; Login := Some true |} |};
                Role_Conditions := [xpv1.Available] |})
      {| ResourceExists := true;
         ResourceUpToDate := false;
         ResourceLateInitialized := false |} None.
Proof.
  apply (role_Observe_twice (mockDB (roleRow false true))
           (aRole "example_role" (Some true) None) _ [] [] false true
           (mockDB_roleAnswers _ _ _ _) (mockDB_roleAnswers _ _ _ _)
           eq_refl).
Defined.

(** ** Grant: the loops of Create, Delete and Update *)

Section GrantLoopShapes.

Variables (db : DB) (keyspace role : string).

Local Abbreviation granted := (granted keyspace role).
Local Abbreviation revoked := (revoked keyspace role).

(** What a loop of Create sends and returns: all of [l] and no error, or
    [l] up to the first rejected GRANT and that rejection, wrapped. *)
Lemma createEach_shape (l : list string) (h : Trace) :
  grant.createEach db keyspace role l h = (None, h ++ granted l)
  \/ exists (pre rest : list string) (p : string) (e : error),
       l = pre ++ p :: rest
       /\ db_Exec db (h ++ granted pre)
            (grant.grantStatement p keyspace role) = Some e
       /\ grant.createEach db keyspace role l h
          = (Some (Wrap e grant.errGrantCreate), h ++ granted (pre ++ [p])).
Proof.
  revert h. induction l as [|q l IH]; intros h; cbn [grant.createEach].
  - left. by rewrite app_nil_r.
  - run. destruct (db_Exec db h _) as [e|] eqn:Hq.
    + right. exists [], l, q, e. by rewrite app_nil_r.
    + destruct (IH (h ++ [CExec (grant.grantStatement q keyspace role)]))
        as [Hall | (pre & rest & p & e & -> & Hfail & Hrun)].
      * left. rewrite Hall. by rewrite <- app_assoc.
      * right. exists (q :: pre), rest, p, e. split; [done|].
        rewrite <- app_assoc in Hfail, Hrun. by rewrite Hrun.
Qed.

Lemma deleteEach_shape (l : list string) (h : Trace) :
  grant.deleteEach db keyspace role l h = (None, h ++ revoked l)
  \/ exists (pre rest : list string) (p : string) (e : error),
       l = pre ++ p :: rest
       /\ db_Exec db (h ++ revoked pre)
            (grant.revokeStatement p keyspace role) = Some e
       /\ grant.deleteEach db keyspace role l h
          = (Some (Wrap e grant.errGrantDelete), h ++ revoked (pre ++ [p])).
Proof.
  revert h. induction l as [|q l IH]; intros h; cbn [grant.deleteEach].
  - left. by rewrite app_nil_r.
  - run. destruct (db_Exec db h _) as [e|] eqn:Hq.
    + right. exists [], l, q, e. by rewrite app_nil_r.
    + destruct (IH (h ++ [CExec (grant.revokeStatement q keyspace role)]))
        as [Hall | (pre & rest & p & e & -> & Hfail & Hrun)].
      * left. rewrite Hall. by rewrite <- app_assoc.
      * right. exists (q :: pre), rest, p, e. split; [done|].
        rewrite <- app_assoc in Hfail, Hrun. by rewrite Hrun.
Qed.

(** The revoke loop of Update is the loop of Delete over the status
    privileges that are not desired. *)
Lemma revokeEach_deleteEach (l : list string) (m : gmap string bool)
    (h : Trace) :
  grant.revokeEach db keyspace role l m h
  = grant.deleteEach db keyspace role
      (filter (fun p => Go.index m p = false) l) h.
Proof.
  revert h. induction l as [|p l IH]; intros h; [done|].
  rewrite filter_cons. cbn [grant.revokeEach].
  destruct (Go.index m p) eqn:Hp; cbn [negb].
  - rewrite decide_False by done. apply IH.
  - rewrite decide_True by done. cbn [grant.deleteEach]. run.
    destruct (db_Exec db h _); [done|]. apply IH.
Qed.

Lemma filter_undesired (D l : list string) :
  filter (fun p => Go.index (grant.markAll ∅ D) p = false) l
  = filter (fun p => p ∉ D) l.
Proof.
  apply list_filter_iff. intros p. rewrite index_markAll.
  apply bool_decide_eq_false.
Qed.

End GrantLoopShapes.

(** ** Grant: Delete and Create *)

(** X12: Delete of a Grant revokes the desired privileges (normalized), not
    the status privileges: it sends one REVOKE per desired privilege, in
    order, and returns a nil error, or it stops at the first rejected REVOKE
    and returns that rejection wrapped as "cannot delete grant".  It sends
    nothing else and never changes the object. *)
Theorem grant_Delete_revokes_desired (db : DB) (cr : Grant)
    (role keyspace : string) (h : Trace) :
  let D :=
    map (fun p => Go.ReplaceAll p "_" " ")
      (Grant_Privileges (Grant_ForProvider cr)) in
  Grant_Role (Grant_ForProvider cr) = Some role ->
  Grant_Keyspace (Grant_ForProvider cr) = Some keyspace ->
  grant.Delete db (AGrant cr) h
    = (Return (answer (AGrant cr) tt None), h ++ revoked keyspace role D)
  \/ exists (pre rest : list string) (p : string) (e : error),
       D = pre ++ p :: rest
       /\ db_Exec db (h ++ revoked keyspace role pre)
            (grant.revokeStatement p keyspace role) = Some e
       /\ grant.Delete db (AGrant cr) h
          = (Return (answer (AGrant cr) tt
                       (Some (Wrap e "cannot delete grant"))),
             h ++ revoked keyspace role (pre ++ [p])).
Proof.
  intros D Hrole Hkeyspace. unfold grant.Delete. rewrite Hrole, Hkeyspace.
  fold (grant.replaceUnderscoreWithSpace
          (Grant_Privileges (Grant_ForProvider cr))) in D.
  fold D. run.
  destruct (deleteEach_shape db keyspace role D h)
    as [Hall | (pre & rest & p & e & HD & Hfail & Hrun)].
  - left. by rewrite Hall.
  - right. exists pre, rest, p, e. by rewrite Hrun.
Qed.

Lemma grant_Delete_revokes_desired_witness :
  grant.Delete (mockDB noRows)
    (AGrant (aGrant ["SELECT"; "ALL_PERMISSIONS"] ["MODIFY"])) []
  = (Return (answer (AGrant (aGrant ["SELECT"; "ALL_PERMISSIONS"] ["MODIFY"]))
               tt None),
     revoked "example_keyspace" "example_role" ["SELECT"; "ALL PERMISSIONS"]).
Proof.
  destruct (grant_Delete_revokes_desired (mockDB noRows)
              (aGrant ["SELECT"; "ALL_PERMISSIONS"] ["MODIFY"])
              "example_role" "example_keyspace" [] eq_refl eq_refl)
    as [Hall | (pre & rest & p & e & _ & Hfail & _)]; [exact Hall|].
  discriminate Hfail.
Defined.

(** X13: Create of a Grant sends one GRANT per desired privilege
    (normalized), in order, and returns a nil error, or it stops at the first
    rejected GRANT and returns that rejection wrapped as "cannot create
    grant".  It sends nothing else, in particular no REVOKE and no query,
    and never changes the object or its status. *)
Theorem grant_Create_grants_desired (db : DB) (cr : Grant)
    (role keyspace : string) (h : Trace) :
  let D :=
    map (fun p => Go.ReplaceAll p "_" " ")
      (Grant_Privileges (Grant_ForProvider cr)) in
  Grant_Role (Grant_ForProvider cr) = Some role ->
  Grant_Keyspace (Grant_ForProvider cr) = Some keyspace ->
  grant.Create db (AGrant cr) h
    = (Return (answer (AGrant cr) noCreation None),
       h ++ granted keyspace role D)
  \/ exists (pre rest : list string) (p : string) (e : error),
       D = pre ++ p :: rest
       /\ db_Exec db (h ++ granted keyspace role pre)
            (grant.grantStatement p keyspace role) = Some e
       /\ grant.Create db (AGrant cr) h
          = (Return (answer (AGrant cr) noCreation
                       (Some (Wrap e "cannot create grant"))),
             h ++ granted keyspace role (pre ++ [p])).
Proof.
  intros D Hrole Hkeyspace. unfold grant.Create. rewrite Hrole, Hkeyspace.
  fold (grant.replaceUnderscoreWithSpace
          (Grant_Privileges (Grant_ForProvider cr))) in D.
  fold D. run.
  destruct (createEach_shape db keyspace role D h)
    as [Hall | (pre & rest & p & e & HD & Hfail & Hrun)].
  - left. by rewrite Hall.
  - right. exists pre, rest, p, e. by rewrite Hrun.
Qed.

Lemma grant_Create_grants_desired_witness :
  let db := rejectingDB (grant.grantStatement "MODIFY" "example_keyspace"
                           "example_role") (New "boom") noRows in
  let cr := aGrant ["SELECT"; "MODIFY"; "ALTER"] [] in
  grant.Create db (AGrant cr) []
    = (Return (answer (AGrant cr) noCreation None),
       [] ++ granted "example_keyspace" "example_role"
               ["SELECT"; "MODIFY"; "ALTER"])
  \/ exists (pre rest : list string) (p : string) (e : error),
       ["SELECT"; "MODIFY"; "ALTER"] = pre ++ p :: rest
       /\ db_Exec db ([] ++ granted "example_keyspace" "example_role" pre)
            (grant.grantStatement p "example_keyspace" "example_role")
          = Some e
       /\ grant.Create db (AGrant cr) []
          = (Return (answer (AGrant cr) noCreation
                       (Some (Wrap e "cannot create grant"))),
             [] ++ granted "example_keyspace" "example_role" (pre ++ [p])).
Proof.
  exact (grant_Create_grants_desired
           (rejectingDB (grant.grantStatement "MODIFY" "example_keyspace"
                           "example_role") (New "boom") noRows)
           (aGrant ["SELECT"; "MODIFY"; "ALTER"] [])
           "example_role" "example_keyspace" [] eq_refl eq_refl).
Defined.

(** ** Grant: the revoke phase of Update *)

Lemma revokesAccepted_cons (db : DB) (keyspace role : string) (h : Trace)
    (p : string) (l : list string) :
  revokesAccepted db keyspace role h (p :: l) ->
  db_Exec db h (grant.revokeStatement p keyspace role) = None
  /\ revokesAccepted db keyspace role (h ++ revoked keyspace role [p]) l.
Proof.
  intros Hacc. split.
  - specialize (Hacc 0%nat p eq_refl). cbn in Hacc.
    by rewrite app_nil_r in Hacc.
  - intros k q Hk. specialize (Hacc (S k) q Hk). cbn in Hacc.
    by rewrite <- app_assoc.
Qed.

Lemma deleteEach_stops (db : DB) (keyspace role : string)
    (pre rest : list string) (p : string) (e : error) (h : Trace) :
  revokesAccepted db keyspace role h pre ->
  db_Exec db (h ++ revoked keyspace role pre)
    (grant.revokeStatement p keyspace role) = Some e ->
  grant.deleteEach db keyspace role (pre ++ p :: rest) h
  = (Some (Wrap e grant.errGrantDelete),
     h ++ revoked keyspace role (pre ++ [p])).
Proof.
  revert h. induction pre as [|q pre IH]; intros h Hacc Hfail; cbn.
  - run. cbn in Hfail. rewrite app_nil_r in Hfail. by rewrite Hfail.
  - apply revokesAccepted_cons in Hacc as [Hq Hacc]. run. rewrite Hq.
    rewrite (IH (h ++ [_]) Hacc) by (by rewrite <- app_assoc).
    by rewrite <- !app_assoc.
Qed.

(** X14: when every GRANT of Update is accepted and a REVOKE is rejected,
    the REVOKEs before it having been accepted, Update returns that
    rejection wrapped as "cannot delete grant"; it has sent all the GRANTs
    and the REVOKEs up to the rejected one, nothing after it, and the object
    with its status privileges is as it was.  The REVOKEs are those for the
    status privileges that are not desired, in the order of the status. *)
Theorem grant_Update_rejected_revoke (db : DB) (cr : Grant)
    (role keyspace : string) (h : Trace) (pre rest : list string)
    (p : string) (e : error) :
  let D :=
    map (fun p => Go.ReplaceAll p "_" " ")
      (Grant_Privileges (Grant_ForProvider cr)) in
  let S := AtProvider_Privileges (Grant_AtProvider cr) in
  Grant_Role (Grant_ForProvider cr) = Some role ->
  Grant_Keyspace (Grant_ForProvider cr) = Some keyspace ->
  grantsAccepted db keyspace role h D ->
  filter (fun p => p ∉ D) S = pre ++ p :: rest ->
  revokesAccepted db keyspace role (h ++ granted keyspace role D) pre ->
  db_Exec db (h ++ granted keyspace role D ++ revoked keyspace role pre)
    (grant.revokeStatement p keyspace role) = Some e ->
  grant.Update db (AGrant cr) h
  = (Return (answer (AGrant cr) noUpdate
               (Some (Wrap e "cannot delete grant"))),
     h ++ granted keyspace role D ++ revoked keyspace role (pre ++ [p])).
Proof.
  intros D S Hrole Hkeyspace Hgrants Hfilter Hrevokes Hfail.
  unfold grant.Update. rewrite Hrole, Hkeyspace.
  fold (grant.replaceUnderscoreWithSpace
          (Grant_Privileges (Grant_ForProvider cr))) in D.
  fold D S. run. rewrite (grantEach_accepted db keyspace role D ∅ h Hgrants).
  cbn [fst snd]. run.
  rewrite revokeEach_deleteEach, filter_undesired, Hfilter.
  rewrite (deleteEach_stops db keyspace role pre rest p e _ Hrevokes)
    by (by rewrite <- app_assoc).
  cbn [fst snd]. run. by rewrite <- app_assoc.
Qed.

Lemma grant_Update_rejected_revoke_witness :
  grant.Update
    (rejectingDB (grant.revokeStatement "DROP" "example_keyspace"
                    "example_role") (New "boom") noRows)
    (AGrant (aGrant ["SELECT"] ["MODIFY"; "SELECT"; "DROP"; "ALTER"])) []
  = (Return (answer
               (AGrant (aGrant ["SELECT"]
                          ["MODIFY"; "SELECT"; "DROP"; "ALTER"]))
               noUpdate (Some (Wrap (New "boom") "cannot delete grant"))),
     [] ++ granted "example_keyspace" "example_role" ["SELECT"]
        ++ revoked "example_keyspace" "example_role" (["MODIFY"] ++ ["DROP"])).
Proof.
  apply (grant_Update_rejected_revoke
           (rejectingDB (grant.revokeStatement "DROP" "example_keyspace"
                           "example_role") (New "boom") noRows)
           (aGrant ["SELECT"] ["MODIFY"; "SELECT"; "DROP"; "ALTER"])
           "example_role" "example_keyspace" [] ["MODIFY"] ["ALTER"] "DROP"
           (New "boom") eq_refl eq_refl).
  - intros [|k] q Hq; [injection Hq as <-; reflexivity | discriminate Hq].
  - reflexivity.
  - intros [|k] q Hq; [injection Hq as <-; reflexivity | discriminate Hq].
  - reflexivity.
Defined.


(** ** Grant: Update, then Update or Observe *)

Lemma filter_all_desired (D l : list string) :
  (forall p, p ∈ l -> p ∈ D) -> filter (fun p => p ∉ D) l = [].
Proof.
  induction l as [|q l IH]; intros Hall; [done|].
  rewrite filter_cons, decide_False.
  - apply IH. intros p Hp. apply Hall. by right.
  - intros Hq. apply Hq, Hall. by left.
Qed.

(** The object a successful Update leaves. *)
Lemma grant_Update_done (db : DB) (cr : Grant) (role keyspace : string)
    (h h' : Trace) (r : Result ExternalUpdate) :
  Grant_Role (Grant_ForProvider cr) = Some role ->
  Grant_Keyspace (Grant_ForProvider cr) = Some keyspace ->
  grant.Update db (AGrant cr) h = (Return r, h') ->
  err r = None ->
  object r
  = AGrant (grant.setPrivileges cr
              (grant.replaceUnderscoreWithSpace
                 (Grant_Privileges (Grant_ForProvider cr)))).
Proof.
  intros Hrole Hkeyspace. unfold grant.Update. rewrite Hrole, Hkeyspace. run.
  destruct (grant.grantEach db keyspace role _ ∅ h) as [[[e|] m] h1];
    cbn [fst snd]; run.
  { intros [= <- <-]; by cbn. }
  destruct (grant.revokeEach db keyspace role _ _ _) as [[e|] h2];
    cbn [fst snd]; run.
  { intros [= <- <-]; by cbn. }
  by intros [= <- <-].
Qed.

(** The upToDate flag of Observe, as a statement about the three lists. *)
Lemma upToDate_flag (mapRange : gmap string bool -> list string)
    (D S : list string) (rows : list (list string)) :
  grant.rangeOrder mapRange ->
  forallb (Go.index (grant.markAll ∅ D)) S
  && (forallb (Go.index (foldl grant.markAll ∅ rows))
        (mapRange (grant.markAll ∅ D)) && true) = true
  <-> (forall p, p ∈ D -> p ∈ concat rows) /\ (forall p, p ∈ S -> p ∈ D).
Proof.
  intros Horder. rewrite andb_true_r, andb_true_iff, !forallb_elem_of. split.
  - intros [HS HD]. split.
    + intros p Hp. specialize (HD p (proj2 (ranged_keys _ _ _ Horder) Hp)).
      rewrite index_observed in HD. by apply bool_decide_eq_true_1 in HD.
    + intros p Hp. specialize (HS p Hp). rewrite index_markAll in HS.
      by apply bool_decide_eq_true_1 in HS.
  - intros [HD HS]. split.
    + intros p Hp. rewrite index_markAll. apply bool_decide_eq_true_2.
      by apply HS.
    + intros p Hp. apply (proj1 (ranged_keys mapRange D p Horder)) in Hp.
      rewrite index_observed. apply bool_decide_eq_true_2. by apply HD.
Qed.

(** X15: Update of a Grant is idempotent.  On the object a successful Update
    left, a further Update whose GRANTs are accepted sends the same GRANTs
    and no REVOKE, returns a nil error and leaves the object unchanged. *)
Theorem grant_Update_twice (db : DB) (cr cr1 : Grant)
    (role keyspace : string) (h h1 h2 : Trace)
    (r1 : Result ExternalUpdate) :
  let D :=
    map (fun p => Go.ReplaceAll p "_" " ")
      (Grant_Privileges (Grant_ForProvider cr)) in
  Grant_Role (Grant_ForProvider cr) = Some role ->
  Grant_Keyspace (Grant_ForProvider cr) = Some keyspace ->
  grant.Update db (AGrant cr) h = (Return r1, h1) ->
  err r1 = None ->
  object r1 = AGrant cr1 ->
  grantsAccepted db keyspace role h2 D ->
  grant.Update db (AGrant cr1) h2
  = (Return (answer (AGrant cr1) noUpdate None),
     h2 ++ granted keyspace role D).
Proof.
  intros D Hrole Hkeyspace Hrun Hok Hobject Hgrants.
  rewrite (grant_Update_done db cr role keyspace h h1 r1 Hrole Hkeyspace
             Hrun Hok) in Hobject.
  injection Hobject as <-.
  fold (grant.replaceUnderscoreWithSpace
          (Grant_Privileges (Grant_ForProvider cr))) in D.
  fold D. unfold grant.Update.
  cbn [grant.setPrivileges Grant_ForProvider Grant_AtProvider
       AtProvider_Privileges].
  rewrite Hrole, Hkeyspace. fold D. run.
  rewrite (grantEach_accepted db keyspace role D ∅ h2 Hgrants).
  cbn [fst snd]. run.
  rewrite revokeEach_deleteEach, filter_undesired,
    filter_all_desired by done.
  cbn [grant.deleteEach]. run. reflexivity.
Qed.

Lemma grant_Update_twice_witness :
  grant.Update (mockDB noRows) (AGrant (aGrant ["SELECT"] ["SELECT"])) []
  = (Return (answer (AGrant (aGrant ["SELECT"] ["SELECT"])) noUpdate None),
     [] ++ granted "example_keyspace" "example_role" ["SELECT"]).
Proof.
  apply (grant_Update_twice (mockDB noRows) (aGrant ["SELECT"] ["MODIFY"])
           (aGrant ["SELECT"] ["SELECT"]) "example_role" "example_keyspace"
           [] _ [] _ eq_refl eq_refl eq_refl eq_refl eq_refl).
  by intros k q _.
Defined.

(** X16: after a successful Update the status privileges are the desired
    ones, so they no longer weigh on the next Observe: when its query
    succeeds, Observe on the object Update left reports upToDate = true
    exactly when every desired privilege (normalized) is among the observed
    permissions, in whatever order the map is ranged over. *)
Theorem grant_Update_then_Observe
    (mapRange : gmap string bool -> list string) (db : DB) (cr cr1 : Grant)
    (role keyspace : string) (h h1 h2 : Trace)
    (r1 : Result ExternalUpdate) (iter : Iter) :
  let D :=
    map (fun p => Go.ReplaceAll p "_" " ")
      (Grant_Privileges (Grant_ForProvider cr)) in
  grant.rangeOrder mapRange ->
  Grant_Role (Grant_ForProvider cr) = Some role ->
  Grant_Keyspace (Grant_ForProvider cr) = Some keyspace ->
  grant.Update db (AGrant cr) h = (Return r1, h1) ->
  err r1 = None ->
  object r1 = AGrant cr1 ->
  db_Query db h2 (grant.observeQuery keyspace) [role] = (iter, None) ->
  exists r : Result ExternalObservation,
    (grant.Observe mapRange db (AGrant cr1) h2).1 = Return r
    /\ err r = None
    /\ (ResourceUpToDate (result r) = true
        <-> forall p, p ∈ D -> p ∈ concat (scanStringLists iter)).
Proof.
  intros D Horder Hrole Hkeyspace Hrun Hok Hobject Hquery.
  rewrite (grant_Update_done db cr role keyspace h h1 r1 Hrole Hkeyspace
             Hrun Hok) in Hobject.
  injection Hobject as <-.
  fold (grant.replaceUnderscoreWithSpace
          (Grant_Privileges (Grant_ForProvider cr))) in D.
  fold D.
  match goal with
  | |- context [grant.Observe mapRange db (AGrant ?c) h2] =>
      rewrite (grant_Observe_run mapRange db c role keyspace h2 iter
                 Hrole Hkeyspace Hquery)
  end.
  cbn [fst grant.setPrivileges Grant_ForProvider Grant_AtProvider
       AtProvider_Privileges].
  fold D. eexists. split; [reflexivity|]. split; [reflexivity|].
  cbn [result ResourceUpToDate answer].
  rewrite (upToDate_flag mapRange D D _ Horder). split.
  - by intros [Hall _].
  - by intros Hall.
Qed.

Lemma grant_Update_then_Observe_witness :
  exists r : Result ExternalObservation,
    (grant.Observe rangeForward (mockDB (permissionRows [["SELECT"]]))
       (AGrant (aGrant ["SELECT"] ["SELECT"])) []).1 = Return r
    /\ err r = None
    /\ (ResourceUpToDate (result r) = true
        <-> forall p : string,
              p ∈ map (fun p => Go.ReplaceAll p "_" " ") ["SELECT"%string] ->
              p ∈ concat [["SELECT"%string]]).
Proof.
  exact (grant_Update_then_Observe rangeForward
           (mockDB (permissionRows [["SELECT"]]))
           (aGrant ["SELECT"] ["MODIFY"]) (aGrant ["SELECT"] ["SELECT"])
           "example_role" "example_keyspace" [] _ [] _
           (permissionRows [["SELECT"]])
           rangeForward_order eq_refl eq_refl eq_refl eq_refl eq_refl
           eq_refl).
Defined.

(** ** Grant: normalizing the privileges *)

Lemma ReplaceAll_length (s : string) (old new : ascii) :
  String.length (Go.ReplaceAll s old new) = String.length s.
Proof. induction s as [|c s IH]; cbn; [done|]. by rewrite IH. Qed.

Lemma ReplaceAll_get (s : string) (old new : ascii) (n : nat) :
  String.get n (Go.ReplaceAll s old new)
  = (fun c => if Ascii.eqb c old then new else c) <$> String.get n s.
Proof.
  revert n. induction s as [|c s IH]; intros n; [done|].
  destruct n as [|n]; [done|]. apply IH.
Qed.

Lemma ReplaceAll_absent (s : string) (old new : ascii) :
  (forall n, String.get n s <> Some old) -> Go.ReplaceAll s old new = s.
Proof.
  induction s as [|c s IH]; intros Habsent; [done|]. cbn.
  destruct (Ascii.eqb_spec c old) as [->|_].
  - by destruct (Habsent 0%nat).
  - f_equal. apply IH. intros n. apply (Habsent (S n)).
Qed.

(** X17: the normalization of the desired privileges keeps their number and
    order and the length of each; it turns every underscore into a space and
    keeps every other character, so no underscore is left; normalizing again
    changes nothing. *)
Theorem replaceUnderscoreWithSpace_normalizes (privileges : list string) :
  let normalized := grant.replaceUnderscoreWithSpace privileges in
  length normalized = length privileges
  /\ (forall (i : nat) (p : string),
        privileges !! i = Some p ->
        exists q,
          normalized !! i = Some q
          /\ String.length q = String.length p
          /\ (forall n,
                String.get n q
                = (fun c => if Ascii.eqb c "_" then " "%char else c)
                    <$> String.get n p)
          /\ (forall n, String.get n q <> Some "_"%char))
  /\ grant.replaceUnderscoreWithSpace normalized = normalized.
Proof.
  intros normalized. subst normalized. unfold grant.replaceUnderscoreWithSpace.
  assert (Hnone : forall p n,
            String.get n (Go.ReplaceAll p "_" " ") <> Some "_"%char).
  { intros p n. rewrite ReplaceAll_get.
    destruct (String.get n p) as [c|]; [|done]. cbn.
    destruct (Ascii.eqb_spec c "_"); [done|congruence]. }
  split; [apply length_map|]. split.
  - intros i p Hp. exists (Go.ReplaceAll p "_" " ").
    split; [by rewrite list_lookup_fmap, Hp|].
    split; [apply ReplaceAll_length|].
    split; [apply ReplaceAll_get|apply Hnone].
  - rewrite map_map. apply map_ext. intros p.
    apply ReplaceAll_absent, Hnone.
Qed.

Lemma replaceUnderscoreWithSpace_normalizes_witness :
  exists q,
    grant.replaceUnderscoreWithSpace ["SELECT"; "ALL_PERMISSIONS"] !! 1%nat
    = Some q
    /\ String.length q = String.length "ALL_PERMISSIONS"
    /\ (forall n,
          String.get n q
          = (fun c => if Ascii.eqb c "_" then " "%char else c)
              <$> String.get n "ALL_PERMISSIONS")
    /\ (forall n, String.get n q <> Some "_"%char).
Proof.
  exact (proj1 (proj2 (replaceUnderscoreWithSpace_normalizes
                         ["SELECT"; "ALL_PERMISSIONS"]))
           1%nat "ALL_PERMISSIONS"%string eq_refl).
Defined.

(** ** Grant: Observe, continued *)

(** X18: the upToDate verdict of Observe depends on the desired privileges,
    the status privileges and the observed permissions as sets only: two
    Grants and two query results that agree on which privileges are desired
    (after normalization), which are in the status and which are observed
    get the same verdict, whatever the order and the repetitions in the
    lists and rows and whatever the order in which the maps are ranged
    over. *)
Theorem grant_Observe_upToDate_of_sets
    (mapRange1 mapRange2 : gmap string bool -> list string) (db1 db2 : DB)
    (cr1 cr2 : Grant) (role1 keyspace1 role2 keyspace2 : string)
    (h1 h2 : Trace) (iter1 iter2 : Iter) :
  let D (cr : Grant) :=
    map (fun p => Go.ReplaceAll p "_" " ")
      (Grant_Privileges (Grant_ForProvider cr)) in
  let S (cr : Grant) := AtProvider_Privileges (Grant_AtProvider cr) in
  grant.rangeOrder mapRange1 ->
  grant.rangeOrder mapRange2 ->
  Grant_Role (Grant_ForProvider cr1) = Some role1 ->
  Grant_Keyspace (Grant_ForProvider cr1) = Some keyspace1 ->
  Grant_Role (Grant_ForProvider cr2) = Some role2 ->
  Grant_Keyspace (Grant_ForProvider cr2) = Some keyspace2 ->
  db_Query db1 h1 (grant.observeQuery keyspace1) [role1] = (iter1, None) ->
  db_Query db2 h2 (grant.observeQuery keyspace2) [role2] = (iter2, None) ->
  (forall p, p ∈ D cr1 <-> p ∈ D cr2) ->
  (forall p, p ∈ S cr1 <-> p ∈ S cr2) ->
  (forall p, p ∈ concat (scanStringLists iter1)
             <-> p ∈ concat (scanStringLists iter2)) ->
  exists r1 r2 : Result ExternalObservation,
    (grant.Observe mapRange1 db1 (AGrant cr1) h1).1 = Return r1
    /\ (grant.Observe mapRange2 db2 (AGrant cr2) h2).1 = Return r2
    /\ ResourceUpToDate (result r1) = ResourceUpToDate (result r2).
Proof.
  intros D S Horder1 Horder2 Hrole1 Hkeyspace1 Hrole2 Hkeyspace2 Hquery1
    Hquery2 HD HS Hobserved.
  rewrite (grant_Observe_run mapRange1 db1 cr1 role1 keyspace1 h1 iter1
             Hrole1 Hkeyspace1 Hquery1),
    (grant_Observe_run mapRange2 db2 cr2 role2 keyspace2 h2 iter2
       Hrole2 Hkeyspace2 Hquery2).
  eexists _, _. split; [reflexivity|]. split; [reflexivity|].
  cbn [result ResourceUpToDate answer].
  apply eq_true_iff_eq.
  rewrite (upToDate_flag mapRange1 _ _ _ Horder1),
    (upToDate_flag mapRange2 _ _ _ Horder2).
  fold (D cr1) (D cr2) (S cr1) (S cr2). split.
  - intros [H1 H2]. split; intros p Hp.
    + by apply Hobserved, H1, HD.
    + by apply HD, H2, HS.
  - intros [H1 H2]. split; intros p Hp.
    + by apply Hobserved, H1, HD.
    + by apply HD, H2, HS.
Qed.

Lemma grant_Observe_upToDate_of_sets_witness :
  exists r1 r2 : Result ExternalObservation,
    (grant.Observe rangeForward
       (mockDB (permissionRows [["MODIFY"]; ["SELECT"; "MODIFY"]]))
       (AGrant (aGrant ["SELECT"; "MODIFY"; "SELECT"] ["SELECT"])) []).1
    = Return r1
    /\ (grant.Observe rangeBackward
          (mockDB (permissionRows [["SELECT"; "MODIFY"]]))
          (AGrant (aGrant ["MODIFY"; "SELECT"] ["SELECT"; "SELECT"])) []).1
       = Return r2
    /\ ResourceUpToDate (result r1) = ResourceUpToDate (result r2).
Proof.
  apply (grant_Observe_upToDate_of_sets rangeForward rangeBackward
           (mockDB (permissionRows [["MODIFY"]; ["SELECT"; "MODIFY"]]))
           (mockDB (permissionRows [["SELECT"; "MODIFY"]]))
           (aGrant ["SELECT"; "MODIFY"; "SELECT"] ["SELECT"])
           (aGrant ["MODIFY"; "SELECT"] ["SELECT"; "SELECT"])
           "example_role" "example_keyspace" "example_role"
           "example_keyspace" [] []
           (permissionRows [["MODIFY"]; ["SELECT"; "MODIFY"]])
           (permissionRows [["SELECT"; "MODIFY"]])
           rangeForward_order rangeBackward_order
           eq_refl eq_refl eq_refl eq_refl eq_refl eq_refl).
  - intros p. cbn. rewrite !elem_of_cons, !elem_of_nil. tauto.
  - intros p. cbn. rewrite !elem_of_cons, !elem_of_nil. tauto.
  - intros p. cbn. rewrite !elem_of_cons, !elem_of_nil. tauto.
Defined.

(** X19: Observe of a Grant whose role and keyspace are set sends exactly
    one query, for the permissions of the role (the query's argument) on the
    resource data/ followed by the keyspace name as it is, without quotes.
    When the query fails, its error comes back wrapped as "cannot observe
    grant" with the zero observation and the object as it was.  Otherwise
    the error is nil, and the conditions are the old ones with Available set
    when exists = true is reported, and as they were when it is not. *)
Theorem grant_Observe_query_and_conditions
    (mapRange : gmap string bool -> list string) (db : DB) (cr : Grant)
    (role keyspace : string) (h : Trace) :
  let query :=
    "SELECT permissions FROM system_auth.role_permissions WHERE role = ? AND resource = 'data/"
      +:+ keyspace +:+ "'" in
  Grant_Role (Grant_ForProvider cr) = Some role ->
  Grant_Keyspace (Grant_ForProvider cr) = Some keyspace ->
  exists (r : Result ExternalObservation) (cr' : Grant),
    grant.Observe mapRange db (AGrant cr) h
    = (Return r, h ++ [CQuery query [role]])
    /\ object r = AGrant cr'
    /\ (forall e, (db_Query db h query [role]).2 = Some e ->
        err r = Some (Wrap e "cannot observe grant")
        /\ result r = noObservation
        /\ cr' = cr)
    /\ ((db_Query db h query [role]).2 = None ->
        err r = None
        /\ Grant_Conditions cr'
           = if ResourceExists (result r)
             then xpv1.SetConditions (Grant_Conditions cr) xpv1.Available
             else Grant_Conditions cr).
Proof.
  intros query Hrole Hkeyspace. fold (grant.observeQuery keyspace) in query.
  destruct (db_Query db h query [role]) as [iter [e|]] eqn:Hquery.
  - unfold grant.Observe. rewrite Hrole, Hkeyspace. run. fold query.
    rewrite Hquery. cbn. eexists _, cr. split; [reflexivity|].
    split; [reflexivity|]. split; [by intros e0 [= <-]|done].
  - rewrite (grant_Observe_run mapRange db cr role keyspace h iter
               Hrole Hkeyspace Hquery).
    fold query. eexists _, _. split; [reflexivity|]. split; [reflexivity|].
    split; [done|]. intros _. split; [reflexivity|].
    cbn [result ResourceExists answer].
    destruct (forallb _ _ && _);
      by destruct (match mapRange _ with [] => _ | _ => _ end).
Qed.

Lemma grant_Observe_query_and_conditions_witness :
  (grant.Observe rangeForward (mockDB (permissionRows [["SELECT"]]))
     (AGrant (aGrant ["SELECT"] [])) []).2
  = [CQuery "SELECT permissions FROM system_auth.role_permissions WHERE role = ? AND resource = 'data/example_keyspace'"
       ["example_role"%string]].
Proof.
  destruct (grant_Observe_query_and_conditions rangeForward
              (mockDB (permissionRows [["SELECT"]]))
              (aGrant ["SELECT"] []) "example_role" "example_keyspace" []
              eq_refl eq_refl) as (r & cr' & Hrun & _).
  by rewrite Hrun.
Defined.

(** ** Grant: nil pointers *)

(** X20: a Grant whose role or keyspace pointer is nil makes each of
    Observe, Create, Update and Delete panic on the dereference, before
    anything is sent to the database. *)
Theorem grant_nil_pointer_panics
    (mapRange : gmap string bool -> list string) (db : DB) (cr : Grant)
    (h : Trace) :
  Grant_Role (Grant_ForProvider cr) = None
  \/ Grant_Keyspace (Grant_ForProvider cr) = None ->
  grant.Observe mapRange db (AGrant cr) h = (Panic, h)
  /\ grant.Create db (AGrant cr) h = (Panic, h)
  /\ grant.Update db (AGrant cr) h = (Panic, h)
  /\ grant.Delete db (AGrant cr) h = (Panic, h).
Proof.
  unfold grant.Observe, grant.Create, grant.Update, grant.Delete.
  intros [-> | ->]; [done|].
  by destruct (Grant_Role (Grant_ForProvider cr)).
Qed.

Lemma grant_nil_pointer_panics_witness :
  grant.Update (mockDB noRows)
    (AGrant {| Grant_Annotations := ∅;
               Grant_ForProvider :=
                 {| Grant_Privileges := ["SELECT"%string];
                    Grant_Role := Some "example_role"%string;
                    Grant_Keyspace := None |};
               Grant_AtProvider := {| AtProvider_Privileges := [] |};
               Grant_Conditions := [] |}) []
  = (Panic, []).
Proof.
  apply (grant_nil_pointer_panics rangeForward (mockDB noRows) _ []).
  by right.
Defined.

(** ** Role: Create, then Observe *)


